(** * i20frontend: the rich-text editor's AI flow and the proposal workflow screen

    A shallow embedding of the two React components of the repository:

    - [TiptapEditor] (the editor wrapper): its local state, the Send handler
      with the outcome of the network call as an argument, and the three
      choices of the response modal;
    - [ProposalDevelopmentModule] (the workflow screen): its handlers as the
      sequence of calls they make on the shared project context, and the
      buttons the screen renders in each state.

    A handler of a React component is a closure over the state of the render
    it was created in; it is modelled as a function of that state.  The calls
    a handler makes on its collaborators (the callbacks in the props, the
    network, the shared context, the router) are returned as a list, in the
    order the source makes them. *)

From stdpp Require Import gmap strings list.
From Stdlib Require Import Ascii String.

Local Open Scope string_scope.

(** JavaScript's [x || ''] on a value that is a string or undefined: a
    missing value and the empty string both give the empty string. *)
Definition or_empty (x : option string) : string :=
  match x with
  | Some s => s
  | None => ""
  end.

(** JavaScript truthiness of a value that is a string or undefined. *)
Definition truthy (x : option string) : bool :=
  match x with
  | Some s => negb (String.eqb s "")
  | None => false
  end.

(** A string put into a template literal: an undefined value prints as the
    word undefined. *)
Definition interpolate (x : option string) : string :=
  match x with
  | Some s => s
  | None => "undefined"
  end.

(** ** The editor wrapper *)

Module TiptapEditor.

(** The props the component reads in its handlers.  A callback is
    represented by whether it was supplied; its invocations are [Effect]s. *)
Record Props := mkProps {
  value : string;
  onChange : bool;
  disabled : bool;
  onAIContentAccept : bool
}.

(** The third-party editor instance, as far as the component uses it: the
    content it was last given and whether it is editable. *)
Record Editor := mkEditor {
  content : string;
  editable : bool
}.

(** The object handed to [JSON.stringify] for the request body. *)
Record RequestBody := mkBody {
  text : string;
  body_action : string;
  body_style : string
}.

Inductive Effect :=
| Fetch (url method : string) (headers : list (string * string)) (body : RequestBody)
| OnChange (newContent : string)
| OnAIContentAccept (newContent : string).

(** What the awaited [res.json()] gives on a response: a rejection (the body
    is not JSON), the value null, or a value whose [text] property is absent
    or a string.  The component declares [responseText] as a string; a
    [text] property of another type is outside this model. *)
Inductive ResponseBody :=
| NotJson
| JsonNull
| JsonValue (text : option string).

(** What the awaited [fetch] gives. *)
Inductive FetchOutcome :=
| NetworkError
| Response (status : nat) (body : ResponseBody).

(** [res.ok]: the status is in the range 200-299. *)
Definition ok (status : nat) : bool :=
  (200 <=? status)%nat && (status <=? 299)%nat.

(** What the [try] block can throw. *)
Inductive Thrown :=
| FetchRejected
| RequestFailed
| JsonRejected
| NullProperty.

(** The component's local state: the editor instance of [useEditor] (null
    until it is created) and the six [useState] cells. *)
Record State := mkState {
  editor : option Editor;
  action : string;
  style : string;
  loading : bool;
  responseText : string;
  modalOpen : bool;
  error : string
}.

Definition setAction (a : string) (s : State) : State :=
  mkState (editor s) a (style s) (loading s) (responseText s) (modalOpen s) (error s).
Definition setStyle (a : string) (s : State) : State :=
  mkState (editor s) (action s) a (loading s) (responseText s) (modalOpen s) (error s).
Definition setLoading (b : bool) (s : State) : State :=
  mkState (editor s) (action s) (style s) b (responseText s) (modalOpen s) (error s).
Definition setResponseText (t : string) (s : State) : State :=
  mkState (editor s) (action s) (style s) (loading s) t (modalOpen s) (error s).
Definition setModalOpen (b : bool) (s : State) : State :=
  mkState (editor s) (action s) (style s) (loading s) (responseText s) b (error s).
Definition setError (e : string) (s : State) : State :=
  mkState (editor s) (action s) (style s) (loading s) (responseText s) (modalOpen s) e.
Definition setEditor (e : option Editor) (s : State) : State :=
  mkState e (action s) (style s) (loading s) (responseText s) (modalOpen s) (error s).

(** [editor.commands.setContent]. *)
Definition setContent (c : string) (e : Editor) : Editor :=
  mkEditor c (editable e).

(** The state of the first render: the [useState] defaults, no editor yet. *)
Definition initialState : State :=
  mkState None "rewrite" "formal" false "" false "".

(** [useEditor] has created the instance: [content: value || ''],
    [editable: !disabled]. *)
Definition mount (p : Props) : State :=
  setEditor (Some (mkEditor (value p) (negb (disabled p)))) initialState.

Definition actionOptions : list (string * string) :=
  [("expand", "Expand"); ("rewrite", "Rewrite"); ("summarize", "Summarize");
   ("improve", "Improve"); ("simplify", "Simplify")].

Definition styleOptions : list (string * string) :=
  [("formal", "Formal"); ("casual", "Casual"); ("creative", "Creative");
   ("professional", "Professional")].

Definition PROCESS_URL : string := "https://backend-tiptap.onrender.com/process".
Definition SEND_FAILED : string := "Failed to get response. Please try again.".

(** The body of the [try] block after the request is sent, up to the value
    of [data.text]. *)
Definition tryBlock (reply : FetchOutcome) : Thrown + option string :=
  match reply with
  | NetworkError => inl FetchRejected
  | Response status body =>
      if negb (ok status) then inl RequestFailed
      else match body with
           | NotJson => inl JsonRejected
           | JsonNull => inl NullProperty
           | JsonValue t => inr t
           end
  end.

(** The Send button and the two dropdowns: [disabled={disabled || loading}]. *)
Definition sendDisabled (p : Props) (s : State) : bool :=
  disabled p || loading s.

Section Handlers.

(** [editor.getText()] and [editor.getHTML()] of the third-party editor, as
    functions of the content it holds. *)
Variable getText : string -> string.
Variable getHTML : string -> string.

(** [handleSend] up to the [await]: nothing without an editor; otherwise the
    loading flag is set, the error cleared and the request issued. *)
Definition handleSend_begin (s : State) : option (State * Effect) :=
  match editor s with
  | None => None
  | Some e =>
      Some (setError "" (setLoading true s),
            Fetch PROCESS_URL "POST" [("Content-Type", "application/json")]
                  (mkBody (getText (content e)) (action s) (style s)))
  end.

(** [handleSend] after the [await]: the rest of [try], [catch], [finally]. *)
Definition handleSend_settle (reply : FetchOutcome) (s : State) : State :=
  setLoading false
    match tryBlock reply with
    | inr t => setModalOpen true (setResponseText (or_empty t) s)
    | inl _ => setError SEND_FAILED s
    end.

Definition handleSend (reply : FetchOutcome) (s : State) : State * list Effect :=
  match handleSend_begin s with
  | None => (s, [])
  | Some (s1, request) => (handleSend_settle reply s1, [request])
  end.

Definition handleAccept (p : Props) (s : State) : State * list Effect :=
  let '(s1, effects) :=
    match editor s with
    | Some e =>
        if truthy (Some (responseText s)) then
          (setEditor (Some (setContent (responseText s) e)) s,
           ((if onChange p then [OnChange (responseText s)] else []) ++
            (if onAIContentAccept p then [OnAIContentAccept (responseText s)] else []))%list)
        else (s, [])
    | None => (s, [])
    end in
  (setResponseText "" (setModalOpen false s1), effects).

Definition handleResend (s : State) : State * list Effect :=
  (setResponseText "" (setModalOpen false s), []).

Definition handleKeepExisting (s : State) : State * list Effect :=
  (setResponseText "" (setModalOpen false s), []).

(** [onUpdate] of the editor: the user changed the document to [c]. *)
Definition onUpdate (p : Props) (c : string) (s : State) : State * list Effect :=
  match editor s with
  | Some e =>
      (setEditor (Some (setContent c e)) s,
       if onChange p then [OnChange (getHTML c)] else [])
  | None => (s, [])
  end.

End Handlers.

(** The ways the transform request fails: the network call rejects, the
    status is outside 200-299, the body is not JSON, or the body is the JSON
    value null. *)
Inductive failed : FetchOutcome -> Prop :=
| failed_network : failed NetworkError
| failed_status status body : ok status = false -> failed (Response status body)
| failed_syntax status : ok status = true -> failed (Response status NotJson)
| failed_null status : ok status = true -> failed (Response status JsonNull).

(** A concrete rendering of the editor's content, for the examples: the
    plain text of a content without markup is the content. *)
Definition plain (c : string) : string := c.

Definition exampleProps : Props := mkProps "Long paragraph..." true false true.

(** *** The component as a transition system *)

(** What the user and the network can do to the component.  [PressSend] is
    [handleSend] up to its [await], [Reply] the rest of it when the awaited
    call settles. *)
Inductive Event :=
| SelectAction (a : string)
| SelectStyle (a : string)
| PressSend
| Reply (reply : FetchOutcome)
| Accept
| Resend
| KeepExisting
| Edit (c : string).

Definition optionValues (options : list (string * string)) : list string :=
  map fst options.

Definition offered (options : list (string * string)) (a : string) : bool :=
  existsb (String.eqb a) (optionValues options).

(** Whether the control of an event is rendered and enabled: nothing is
    rendered without an editor; the dropdowns offer their options and are,
    like Send, disabled by the [disabled] prop and while loading; the three
    choices are in the modal; the surface takes input when it is editable; a
    reply can only arrive while a request is out. *)
Definition available (p : Props) (s : State) (ev : Event) : bool :=
  match ev with
  | Reply _ => loading s
  | _ =>
      match editor s with
      | None => false
      | Some e =>
          match ev with
          | SelectAction a => negb (sendDisabled p s) && offered actionOptions a
          | SelectStyle a => negb (sendDisabled p s) && offered styleOptions a
          | PressSend => negb (sendDisabled p s)
          | Accept | Resend | KeepExisting => modalOpen s
          | Edit _ => editable e
          | Reply _ => false
          end
      end
  end.

Section Transitions.

Variable getText : string -> string.
Variable getHTML : string -> string.

Definition step (p : Props) (s : State) (ev : Event) : State * list Effect :=
  match ev with
  | SelectAction a => (setAction a s, [])
  | SelectStyle a => (setStyle a s, [])
  | PressSend =>
      match handleSend_begin getText s with
      | Some (s1, request) => (s1, [request])
      | None => (s, [])
      end
  | Reply reply => (handleSend_settle reply s, [])
  | Accept => handleAccept p s
  | Resend => handleResend s
  | KeepExisting => handleKeepExisting s
  | Edit c => onUpdate getHTML p c s
  end.

(** The states the component can be in after it mounted with props [p]. *)
Inductive reachable (p : Props) : State -> Prop :=
| reachable_mount : reachable p (mount p)
| reachable_step s ev :
    reachable p s ->
    available p s ev = true ->
    reachable p (fst (step p s ev)).

End Transitions.

End TiptapEditor.

(** ** The proposal workflow screen *)

Module ProposalDevelopmentModule.

Record ProposalSection := mkSection {
  section_id : string;
  section_name : string;
  placeholder : string
}.

Definition PROPOSAL_SECTIONS : list ProposalSection :=
  [ mkSection "background" "Detailed Background"
      "Expand on the literature, identify gaps...";
    mkSection "objectives" "Research Objectives/Hypotheses"
      "Clearly state primary and secondary objectives or testable hypotheses.";
    mkSection "methodology" "Methodology"
      "Study design, patient population, data collection methods, variables...";
    mkSection "sampleSize" "Sample Size Justification"
      "How was the sample size determined? Power calculations?";
    mkSection "dataAnalysisPlan" "Data Analysis Plan"
      "Statistical methods to be used for each objective.";
    mkSection "budget" "Budget (Brief Outline)"
      "Estimated costs for personnel, supplies, etc. (if applicable).";
    mkSection "ethics" "Ethical Considerations"
      "Patient consent, data privacy, potential risks and mitigation.";
    mkSection "dissemination" "Dissemination Plan"
      "How will findings be shared? (e.g., publication, presentation)." ].

(** [PROPOSAL_SECTIONS.find(s => s.id === sectionId)]. *)
Definition findSection (sectionId : string) : option ProposalSection :=
  find (fun s => String.eqb (section_id s) sectionId) PROPOSAL_SECTIONS.

(** [PROPOSAL_SECTIONS.find(...)?.name || sectionId]. *)
Definition sectionLabel (sectionId : string) : string :=
  match findSection sectionId with
  | Some s => if truthy (Some (section_name s)) then section_name s else sectionId
  | None => sectionId
  end.

Inductive NotificationType := Success | Error | Info | Warning.

Record Notification := mkNotification {
  message : string;
  type : NotificationType
}.

Record Idea := mkIdea {
  concept : option string;
  background : option string;
  objective : option string
}.

(** The proposal object of a project.  A field that a JavaScript object may
    lack is an [option]; the sections object is a map from section id to
    text. *)
Record Proposal := mkProposal {
  sections : gmap string string;
  ethicsStatus : option string;
  ethicsFeedback : option string
}.

(** The argument of [updateProposal]: an object with some of the proposal's
    keys. *)
Record ProposalPatch := mkPatch {
  patch_sections : option (gmap string string);
  patch_ethicsStatus : option string;
  patch_ethicsFeedback : option string
}.

(** The object spread [{...proposal}]. *)
Definition spread (pr : Proposal) : ProposalPatch :=
  mkPatch (Some (sections pr)) (ethicsStatus pr) (ethicsFeedback pr).

Definition emptyPatch : ProposalPatch := mkPatch None None None.

(** The reply of the text generation service: [{text?, error?}]. *)
Record RAGResponse := mkResponse {
  response_text : option string;
  response_error : option string
}.

(** [response.text && !response.error]. *)
Definition succeeded (response : RAGResponse) : bool :=
  truthy (response_text response) && negb (truthy (response_error response)).

Definition QUOTE : string := String "034"%char EmptyString.
Definition NEWLINE : string := String "010"%char EmptyString.

(** The marker put between a section's text and the suggestions appended to
    it. *)
Definition AI_SEPARATOR : string :=
  NEWLINE +:+ NEWLINE +:+ "--- AI Suggestions ---" +:+ NEWLINE.

Definition ETHICS_STATUSES : list string :=
  ["Not Submitted"; "Submitted"; "Feedback Received"; "Approved"].

Definition ETHICS_FEEDBACK : string :=
  "The Ethics Committee has reviewed your proposal. Please clarify the patient recruitment strategy (Section: Methodology) and provide more details on data anonymization (Section: Ethics). Resubmission required.".

Definition NOT_APPROVED : string :=
  "Proposal must be approved by Ethics Committee before proceeding.".

Section Screen.

(** The enumerations [UserRole] and [ModuleStage] and the list [MOCK_USERS]
    are declared outside the two source files; the screen is modelled for
    any such declarations. *)
Context {UserRole : Type} `{!EqDecision UserRole}.
Context (HCP RESEARCHER STATISTICIAN : UserRole).
Context {ModuleStage : Type} (DATA_COLLECTION_ANALYSIS : ModuleStage).

Record User := mkUser {
  user_id : string;
  user_name : string;
  role : UserRole
}.

Variable MOCK_USERS : list User.

Record Project := mkProject {
  title : string;
  idea : option Idea;
  proposal : option Proposal;
  stage : ModuleStage;
  assignedResearcher : option string;
  assignedStatistician : option string
}.

(** What the screen reads: the shared project context ([currentProject],
    [isLoading], [error]), its own [useState] cells and the current route. *)
Record World := mkWorld {
  currentProject : option Project;
  isLoading : bool;
  error : option string;
  activeSection : option string;
  notification : option Notification;
  showMeetingPlaceholder : bool;
  route : string
}.

(** The calls a handler makes on the context, on its own state setters and
    on the router. *)
Inductive Call :=
| UpdateProposal (patch : ProposalPatch)
| SetIsLoading (b : bool)
| SetError (msg : string)
| ClearError
| AssignExpert (expertRole expertId : string)
| SetProjectStage (s : ModuleStage)
| SetNotification (n : option Notification)
| SetActiveSection (sectionId : option string)
| SetShowMeetingPlaceholder (b : bool)
| Navigate (path : string).

(** [currentProject?.proposal?.ethicsStatus]. *)
Definition statusOf (currentProject : option Project) : option string :=
  match currentProject with
  | Some p => match proposal p with
              | Some pr => ethicsStatus pr
              | None => None
              end
  | None => None
  end.

Definition statusIs (currentProject : option Project) (s : string) : bool :=
  bool_decide (statusOf currentProject = Some s).

(** [currentProject?.proposal?.sections?.[sectionId] || '']. *)
Definition sectionText (currentProject : option Project) (sectionId : string) : string :=
  match currentProject with
  | Some p => match proposal p with
              | Some pr => or_empty (sections pr !! sectionId)
              | None => ""
              end
  | None => ""
  end.

Definition handleSectionChange (currentProject : option Project)
    (sectionId value : string) : list Call :=
  match currentProject with
  | Some p =>
      match proposal p with
      | Some pr =>
          [UpdateProposal
             (mkPatch (Some (<[sectionId := value]> (sections pr)))
                      (ethicsStatus pr) (ethicsFeedback pr))]
      | None => []
      end
  | None => []
  end.

(** [updateProposal(currentProject.proposal)]: with no proposal the argument
    is undefined, which carries no key. *)
Definition handleSaveProposal (currentProject : option Project) : list Call :=
  match currentProject with
  | Some p =>
      [UpdateProposal (match proposal p with
                       | Some pr => spread pr
                       | None => emptyPatch
                       end);
       SetNotification (Some (mkNotification "Proposal draft saved successfully!" Success))]
  | None => []
  end.

(** [getAISectionSuggestion], with the reply of the awaited service call as
    an argument.  The prompt, context and instruction strings sent to the
    service are not modelled. *)
Definition getAISectionSuggestion (currentProject : option Project)
    (sectionId : string) (response : RAGResponse) : list Call :=
  match currentProject with
  | Some p =>
      match proposal p with
      | Some pr =>
          let currentSectionContent := or_empty (sections pr !! sectionId) in
          [SetIsLoading true; ClearError; SetNotification None] ++
          (if succeeded response
           then
             handleSectionChange currentProject sectionId
               (currentSectionContent +:+ AI_SEPARATOR +:+ or_empty (response_text response)) ++
             [SetNotification (Some (mkNotification
                ("AI suggestions for '" +:+ sectionId +:+ "' loaded.") Info))]
           else
             [SetError (if truthy (response_error response)
                        then or_empty (response_error response)
                        else "Failed to get AI suggestions.");
              SetNotification (Some (mkNotification
                ("Error: " +:+ interpolate (response_error response)) Error))]) ++
          [SetIsLoading false]
      | None => [SetError "No active project or proposal to get suggestions for."]
      end
  | None => [SetError "No active project or proposal to get suggestions for."]
  end.

Definition submitToEthics (currentProject : option Project) : list Call :=
  match currentProject with
  | Some _ =>
      [UpdateProposal (mkPatch None (Some "Submitted") None);
       SetNotification (Some (mkNotification
         "Proposal submitted to Ethics Committee/IRB (Simulated)." Success))]
  | None => []
  end.

Definition simulateEthicsFeedback (currentProject : option Project) : list Call :=
  match currentProject with
  | Some _ =>
      [UpdateProposal (mkPatch None (Some "Feedback Received") (Some ETHICS_FEEDBACK));
       SetNotification (Some (mkNotification
         "Simulated feedback received from Ethics Committee." Info))]
  | None => []
  end.

(** [MOCK_USERS.find(u => u.role === UserRole.STATISTICIAN)]. *)
Definition findStatistician : option User :=
  find (fun u => bool_decide (role u = STATISTICIAN)) MOCK_USERS.

Definition markEthicsApproved (currentProject : option Project) : list Call :=
  match currentProject with
  | Some _ =>
      UpdateProposal (mkPatch None (Some "Approved")
        (Some "Congratulations! Your proposal has been approved.")) ::
      match findStatistician with
      | Some statistician =>
          [AssignExpert "statistician" (user_id statistician);
           SetNotification (Some (mkNotification
             ("Proposal Approved! Statistician " +:+ QUOTE +:+ user_name statistician +:+
              QUOTE +:+ " has been assigned (12 hours allocated).") Success))]
      | None =>
          [SetNotification (Some (mkNotification
             "Proposal Approved! (No mock statistician found)." Success))]
      end
  | None => []
  end.

Definition proceedToDataCollection (currentProject : option Project) : list Call :=
  if statusIs currentProject "Approved" then
    [SetProjectStage DATA_COLLECTION_ANALYSIS;
     SetNotification (Some (mkNotification
       "Proceeding to Data Collection & Analysis." Success));
     Navigate "/data"]
  else
    [SetError NOT_APPROVED;
     SetNotification (Some (mkNotification NOT_APPROVED Error))].

(** [canEdit]: the current user is a health care professional or a
    researcher. *)
Definition canEdit (currentUser : option User) : bool :=
  match currentUser with
  | Some u => bool_decide (role u = HCP) || bool_decide (role u = RESEARCHER)
  | None => false
  end.

(** The [onAIContentAccept] callback the screen gives the editor. *)
Definition onAIContentAccept (currentProject : option Project)
    (activeSection content : string) : list Call :=
  handleSectionChange currentProject activeSection content ++
  handleSaveProposal currentProject ++
  [SetNotification (Some (mkNotification
     (sectionLabel activeSection +:+ " section updated with AI suggestion and saved!")
     Success))].

(** The effect of [useEffect] on a change of the project. *)
Definition projectEffect (currentProject : option Project) : list Call :=
  match currentProject with
  | Some p =>
      if truthy (assignedResearcher p) && negb (bool_decide (is_Some (proposal p)))
      then [SetShowMeetingPlaceholder true] else []
  | None => []
  end.

(** *** The shared project context

    The context provider is not part of the two source files; the screen only
    calls it. *)

(** Modelled from the spec: [updateProposal(partial)] of the shared project
    context, which is outside the source files.  The keys of the partial
    object replace those of the current project's proposal (an object spread
    of the proposal, then of the partial); a project without a proposal gets
    one with the given keys; without a project nothing happens. *)
Definition updateProposal (patch : ProposalPatch) (w : World) : World :=
  match currentProject w with
  | Some p =>
      let old := match proposal p with
                 | Some pr => pr
                 | None => mkProposal ∅ None None
                 end in
      let new := mkProposal
        (match patch_sections patch with Some m => m | None => sections old end)
        (match patch_ethicsStatus patch with Some x => Some x | None => ethicsStatus old end)
        (match patch_ethicsFeedback patch with Some x => Some x | None => ethicsFeedback old end) in
      mkWorld
        (Some (mkProject (title p) (idea p) (Some new) (stage p)
                         (assignedResearcher p) (assignedStatistician p)))
        (isLoading w) (error w) (activeSection w) (notification w)
        (showMeetingPlaceholder w) (route w)
  | None => w
  end.

(** Modelled from the spec: [setProjectStage(stage)] of the shared project
    context, which is outside the source files: the stage of the current
    project is replaced. *)
Definition setProjectStage (s : ModuleStage) (w : World) : World :=
  match currentProject w with
  | Some p =>
      mkWorld
        (Some (mkProject (title p) (idea p) (proposal p) s
                         (assignedResearcher p) (assignedStatistician p)))
        (isLoading w) (error w) (activeSection w) (notification w)
        (showMeetingPlaceholder w) (route w)
  | None => w
  end.

(** Modelled from the spec: [assignExpert(role, id)] of the shared project
    context, which is outside the source files: the identifier is recorded in
    the current project as the assigned expert of that role, in the field the
    screen reads it from. *)
Definition assignExpert (expertRole expertId : string) (w : World) : World :=
  match currentProject w with
  | Some p =>
      mkWorld
        (Some (mkProject (title p) (idea p) (proposal p) (stage p)
           (if String.eqb expertRole "researcher" then Some expertId
            else assignedResearcher p)
           (if String.eqb expertRole "statistician" then Some expertId
            else assignedStatistician p)))
        (isLoading w) (error w) (activeSection w) (notification w)
        (showMeetingPlaceholder w) (route w)
  | None => w
  end.

(** Modelled from the spec: the setters [setIsLoading], [setError] and
    [clearError] of the shared project context, which is outside the source
    files: each replaces its own slice. *)
Definition setIsLoading (b : bool) (w : World) : World :=
  mkWorld (currentProject w) b (error w) (activeSection w) (notification w)
          (showMeetingPlaceholder w) (route w).
Definition setError (e : option string) (w : World) : World :=
  mkWorld (currentProject w) (isLoading w) e (activeSection w) (notification w)
          (showMeetingPlaceholder w) (route w).

(** The setters of the screen's own [useState] cells and the router's
    [navigate]. *)
Definition setNotification (n : option Notification) (w : World) : World :=
  mkWorld (currentProject w) (isLoading w) (error w) (activeSection w) n
          (showMeetingPlaceholder w) (route w).
Definition setActiveSection (a : option string) (w : World) : World :=
  mkWorld (currentProject w) (isLoading w) (error w) a (notification w)
          (showMeetingPlaceholder w) (route w).
Definition setShowMeetingPlaceholder (b : bool) (w : World) : World :=
  mkWorld (currentProject w) (isLoading w) (error w) (activeSection w) (notification w)
          b (route w).
Definition navigate (path : string) (w : World) : World :=
  mkWorld (currentProject w) (isLoading w) (error w) (activeSection w) (notification w)
          (showMeetingPlaceholder w) path.

Definition perform (c : Call) (w : World) : World :=
  match c with
  | UpdateProposal patch => updateProposal patch w
  | SetIsLoading b => setIsLoading b w
  | SetError msg => setError (Some msg) w
  | ClearError => setError None w
  | AssignExpert r i => assignExpert r i w
  | SetProjectStage s => setProjectStage s w
  | SetNotification n => setNotification n w
  | SetActiveSection a => setActiveSection a w
  | SetShowMeetingPlaceholder b => setShowMeetingPlaceholder b w
  | Navigate path => navigate path w
  end.

(** The calls of a handler, made in order. *)
Definition run (calls : list Call) (w : World) : World :=
  foldl (fun w c => perform c w) w calls.

(** Whether a call is an [updateProposal]. *)
Definition touchesProposal (c : Call) : bool :=
  match c with
  | UpdateProposal _ => true
  | _ => false
  end.

(** That a status is one of the four enumerated values. *)
Definition enumerated (status : option string) : Prop :=
  exists x, status = Some x /\ In x ETHICS_STATUSES.

(** A call that cannot change the ethics status [st]: any call but an
    [updateProposal] whose partial object has another status. *)
Definition keepsStatus (st : option string) (c : Call) : Prop :=
  match c with
  | UpdateProposal patch =>
      patch_ethicsStatus patch = None \/ patch_ethicsStatus patch = st
  | _ => True
  end.

(** *** What the screen renders *)

(** What a user can do on the screen. *)
Inductive Event :=
| SelectSection (sectionId : string)
| EditSection (content : string)
| AcceptAIContent (content : string)
| SaveDraft
| AISuggestions (response : RAGResponse)
| SubmitToEthics
| SimulateEthicsFeedback
| MarkEthicsApproved
| ProceedToDataCollection
| MarkAsMet
| DismissNotification
| DismissError.

(** [activeSection && PROPOSAL_SECTIONS.find(s => s.id === activeSection)]:
    the editor card is rendered. *)
Definition editorShown (w : World) : bool :=
  match activeSection w with
  | Some a => truthy (Some a) && bool_decide (is_Some (findSection a))
  | None => false
  end.

(** Whether the control of an event is on the screen, for a user who can or
    cannot edit.  Without a project or without an idea only the placeholder
    card is rendered.  The editor is disabled for a user who cannot edit and
    while the context is loading; its modal, once open, is not. *)
Definition available (editing : bool) (w : World) (ev : Event) : bool :=
  match currentProject w with
  | Some p =>
      match idea p with
      | Some _ =>
          let cp := currentProject w in
          match ev with
          | SelectSection a => bool_decide (is_Some (findSection a))
          | EditSection _ => editorShown w && editing && negb (isLoading w)
          | AcceptAIContent _ => editorShown w
          | SaveDraft => editing
          | AISuggestions _ => editorShown w && editing
          | SubmitToEthics =>
              editing && (statusIs cp "Not Submitted" || statusIs cp "Feedback Received")
          | SimulateEthicsFeedback => statusIs cp "Submitted"
          | MarkEthicsApproved =>
              (editing && statusIs cp "Feedback Received") ||
              (editing && negb (statusIs cp "Approved") &&
               negb (statusIs cp "Feedback Received") && negb (statusIs cp "Submitted"))
          | ProceedToDataCollection => statusIs cp "Approved"
          | MarkAsMet => showMeetingPlaceholder w
          | DismissNotification => bool_decide (is_Some (notification w))
          | DismissError => truthy (error w)
          end
      | None => false
      end
  | None => false
  end.

(** The handler behind each control, as a closure over the rendered state. *)
Definition handler (w : World) (ev : Event) : list Call :=
  let cp := currentProject w in
  match ev with
  | SelectSection a => [SetActiveSection (Some a)]
  | EditSection c => handleSectionChange cp (or_empty (activeSection w)) c
  | AcceptAIContent c => onAIContentAccept cp (or_empty (activeSection w)) c
  | SaveDraft => handleSaveProposal cp
  | AISuggestions r => getAISectionSuggestion cp (or_empty (activeSection w)) r
  | SubmitToEthics => submitToEthics cp
  | SimulateEthicsFeedback => simulateEthicsFeedback cp
  | MarkEthicsApproved => markEthicsApproved cp
  | ProceedToDataCollection => proceedToDataCollection cp
  | MarkAsMet => [SetShowMeetingPlaceholder false]
  | DismissNotification => [SetNotification None]
  | DismissError => [ClearError]
  end.

Definition step (w : World) (ev : Event) : World :=
  run (handler w ev) w.

(** The three operations of the ethics workflow. *)
Definition ethicsOperation (ev : Event) : bool :=
  match ev with
  | SubmitToEthics | SimulateEthicsFeedback | MarkEthicsApproved => true
  | _ => false
  end.

(** The screen is rendered: there is a project with an idea. *)
Definition rendered (w : World) : bool :=
  match currentProject w with
  | Some p => bool_decide (is_Some (idea p))
  | None => false
  end.

(** The worlds a user can bring the screen to from [w]. *)
Inductive reachable (editing : bool) (w : World) : World -> Prop :=
| reachable_refl : reachable editing w w
| reachable_step w1 ev :
    reachable editing w w1 ->
    available editing w1 ev = true ->
    reachable editing w (step w1 ev).

(** The callbacks the screen passes to the editor card, [onChange] and
    [onAIContentAccept], as what they do with an effect of the editor; a
    request of the editor does not reach the screen. *)
Definition editorCallbacks (currentProject : option Project) (activeSection : string)
    (e : TiptapEditor.Effect) : list Call :=
  match e with
  | TiptapEditor.OnChange c => handleSectionChange currentProject activeSection c
  | TiptapEditor.OnAIContentAccept c => onAIContentAccept currentProject activeSection c
  | TiptapEditor.Fetch _ _ _ _ => []
  end.

End Screen.

(** *** A concrete screen for the examples: roles and stages as strings. *)

Definition exampleUsers : list (@User string) :=
  [ mkUser "user1" "Dr. Ada" "HCP";
    mkUser "user2" "Prof. Bo" "Researcher";
    mkUser "user3" "Cy Stat" "Statistician";
    mkUser "user4" "Di Stat" "Statistician" ].

Definition exampleIdea : Idea :=
  mkIdea (Some "Early mobilisation") (Some "Little is known.") (Some "Shorter stays").

Definition exampleProject (status : option string) : @Project string :=
  mkProject "Mobility trial" (Some exampleIdea)
    (Some (mkProposal {[ "background" := "Known facts." ]} status None))
    "PROPOSAL" None None.

Definition exampleWorld (status : option string) : @World string :=
  mkWorld (Some (exampleProject status)) false None (Some "background") None false
          "/proposal".

(** A project whose idea is validated and which has no proposal yet. *)
Definition draftWorld : @World string :=
  mkWorld (Some (mkProject "Mobility trial" (Some exampleIdea) None "IDEA"
                   (Some "user2") None))
          false None (Some "background") None false "/proposal".

End ProposalDevelopmentModule.
Lemma truthy_Some (s : string) : truthy (Some s) = true <-> s <> "".
Proof.
  unfold truthy. destruct (String.eqb_spec s ""); simpl; split; intros; congruence.
Qed.

Lemma truthy_or_empty (x : option string) :
  truthy x = true -> x = Some (or_empty x) /\ or_empty x <> "".
Proof.
  destruct x as [s|]; simpl; [|discriminate].
  intros H. split; [reflexivity|]. now apply truthy_Some.
Qed.

Lemma not_truthy_or_empty (x : option string) :
  truthy x = false -> or_empty x = "".
Proof.
  destruct x as [s|]; simpl; [|reflexivity].
  destruct (String.eqb_spec s ""); simpl; congruence.
Qed.

(** ** Properties of the editor wrapper *)

Module TiptapEditorProofs.
Import TiptapEditor.

Lemma failed_tryBlock (reply : FetchOutcome) :
  failed reply <-> exists t, tryBlock reply = inl t.
Proof.
  split.
  - intros [ | status body H | status H | status H]; simpl; rewrite ?H; simpl; eauto.
  - intros [t Ht]. destruct reply as [|status body]; [constructor|].
    simpl in Ht. destruct (ok status) eqn:E; simpl in Ht.
    + destruct body; try discriminate; now constructor.
    + now constructor.
Qed.

Section Handlers.

Variable getText : string -> string.
Variable getHTML : string -> string.

Lemma handleSend_state (reply : FetchOutcome) (s : State) (e : Editor) :
  editor s = Some e ->
  handleSend getText reply s =
    (handleSend_settle reply (setError "" (setLoading true s)),
     [Fetch PROCESS_URL "POST" [("Content-Type", "application/json")]
        (mkBody (getText (content e)) (action s) (style s))]).
Proof.
  intros He. unfold handleSend, handleSend_begin. now rewrite He.
Qed.

(** C1, as amended: with an editor on the page, Send issues one POST whose
    body holds the plain text of the surface and the two selections; on a 2xx
    reply whose text field is a non-empty string the modal opens with that
    text, and Accept then makes the surface content that text, calls
    [onChange] and the acceptance callback (each when supplied) with it,
    closes the modal and clears the pending response. *)
Theorem send_accept_replaces_content
    (p : Props) (s : State) (e : Editor) (status : nat) (t : string) :
  editor s = Some e ->
  ok status = true ->
  t <> "" ->
  let sent := handleSend getText (Response status (JsonValue (Some t))) s in
  let accepted := handleAccept p (fst sent) in
  snd sent = [Fetch PROCESS_URL "POST" [("Content-Type", "application/json")]
                (mkBody (getText (content e)) (action s) (style s))] /\
  modalOpen (fst sent) = true /\
  responseText (fst sent) = t /\
  error (fst sent) = "" /\
  option_map content (editor (fst accepted)) = Some t /\
  snd accepted = ((if onChange p then [OnChange t] else []) ++
                  (if onAIContentAccept p then [OnAIContentAccept t] else []))%list /\
  modalOpen (fst accepted) = false /\
  responseText (fst accepted) = "".
Proof.
  intros He Hok Ht sent accepted.
  subst accepted sent. rewrite (handleSend_state _ _ _ He). simpl.
  unfold handleSend_settle, tryBlock. rewrite Hok. simpl.
  unfold handleAccept. simpl. rewrite He.
  apply truthy_Some in Ht. simpl in Ht. rewrite Ht. simpl.
  repeat split; reflexivity.
Qed.

(** C3, as amended: when the request fails by a network error, a status
    outside 200-299, a body that is not JSON or a null body, Send ends with
    the one generic error message, whatever the cause, and leaves the modal
    flag and the pending response as they were. *)
Theorem send_failure_uniform (s : State) (e : Editor) (reply : FetchOutcome) :
  editor s = Some e ->
  failed reply ->
  error (fst (handleSend getText reply s)) = SEND_FAILED /\
  modalOpen (fst (handleSend getText reply s)) = modalOpen s /\
  responseText (fst (handleSend getText reply s)) = responseText s /\
  loading (fst (handleSend getText reply s)) = false.
Proof.
  intros He Hf. rewrite (handleSend_state _ _ _ He). simpl.
  apply failed_tryBlock in Hf as [t Ht].
  unfold handleSend_settle. rewrite Ht. simpl. repeat split; reflexivity.
Qed.

(** C7, as amended: after a transform request that fails with a status
    outside 200-299 the error string is the non-empty generic message, and
    the pending response and the modal flag are what they were before the
    request: empty and closed when the request starts from there, as in the
    first render and after every choice on the modal. *)
Theorem send_non2xx_state (s : State) (e : Editor) (status : nat) (body : ResponseBody) :
  editor s = Some e ->
  ok status = false ->
  error (fst (handleSend getText (Response status body) s)) = SEND_FAILED /\
  error (fst (handleSend getText (Response status body) s)) <> "" /\
  responseText (fst (handleSend getText (Response status body) s)) = responseText s /\
  modalOpen (fst (handleSend getText (Response status body) s)) = modalOpen s.
Proof.
  intros He Hok. rewrite (handleSend_state _ _ _ He). simpl.
  unfold handleSend_settle, tryBlock. rewrite Hok. simpl.
  repeat split; try reflexivity; discriminate.
Qed.

(** C9: Resend and Keep Existing leave the editor and its content as they
    are, call neither [onChange] nor the acceptance callback, close the modal
    and reset the pending response to the empty string. *)
Theorem resend_keep_existing_frame (s : State) :
  (editor (fst (handleResend s)) = editor s /\
   snd (handleResend s) = [] /\
   modalOpen (fst (handleResend s)) = false /\
   responseText (fst (handleResend s)) = "") /\
  (editor (fst (handleKeepExisting s)) = editor s /\
   snd (handleKeepExisting s) = [] /\
   modalOpen (fst (handleKeepExisting s)) = false /\
   responseText (fst (handleKeepExisting s)) = "").
Proof. repeat split. Qed.

(** C10: with an empty pending response Accept closes the modal and clears
    the response, leaves the editor and its content as they are and calls
    neither [onChange] nor the acceptance callback. *)
Theorem accept_empty_response (p : Props) (s : State) :
  responseText s = "" ->
  editor (fst (handleAccept p s)) = editor s /\
  snd (handleAccept p s) = [] /\
  modalOpen (fst (handleAccept p s)) = false /\
  responseText (fst (handleAccept p s)) = "".
Proof.
  destruct s as [ed a st l r m err]. simpl. intros ->.
  unfold handleAccept. simpl. destruct ed; repeat split; reflexivity.
Qed.

End Handlers.

(** C1 at the example of the specification. *)
Lemma send_accept_replaces_content_example :
  let s := setStyle "casual" (setAction "summarize" (mount exampleProps)) in
  let sent := handleSend plain (Response 200 (JsonValue (Some "Short version."))) s in
  let accepted := handleAccept exampleProps (fst sent) in
  snd sent = [Fetch PROCESS_URL "POST" [("Content-Type", "application/json")]
                (mkBody "Long paragraph..." "summarize" "casual")] /\
  modalOpen (fst sent) = true /\
  responseText (fst sent) = "Short version." /\
  error (fst sent) = "" /\
  option_map content (editor (fst accepted)) = Some "Short version." /\
  snd accepted = [OnChange "Short version."; OnAIContentAccept "Short version."] /\
  modalOpen (fst accepted) = false /\
  responseText (fst accepted) = "".
Proof.
  apply (send_accept_replaces_content plain exampleProps
           (setStyle "casual" (setAction "summarize" (mount exampleProps)))
           (mkEditor "Long paragraph..." true) 200 "Short version.");
    [reflexivity | reflexivity | discriminate].
Defined.

(** C1 fails as stated: a 2xx reply whose text field is the empty string
    opens the modal, and Accept then neither replaces the surface content by
    that text nor calls a callback. *)
Lemma accept_empty_text_field_keeps_content :
  let sent := handleSend plain (Response 200 (JsonValue (Some ""))) (mount exampleProps) in
  let accepted := handleAccept exampleProps (fst sent) in
  modalOpen (fst sent) = true /\
  option_map content (editor (fst accepted)) = Some "Long paragraph..." /\
  option_map content (editor (fst accepted)) <> Some "" /\
  snd accepted = [].
Proof. repeat split; try reflexivity. discriminate. Qed.

(** C3 fails as stated: a 2xx JSON reply without a text field leaves no
    error message and opens the modal. *)
Lemma send_missing_text_opens_modal :
  let s' := fst (handleSend plain (Response 200 (JsonValue None)) (mount exampleProps)) in
  error s' = "" /\ error s' <> SEND_FAILED /\ modalOpen s' = true.
Proof. repeat split; try reflexivity. discriminate. Qed.

Lemma send_failure_uniform_witness :
  failed (Response 500 NotJson) /\
  error (fst (handleSend plain (Response 500 NotJson) (mount exampleProps))) = SEND_FAILED /\
  modalOpen (fst (handleSend plain (Response 500 NotJson) (mount exampleProps))) = false /\
  responseText (fst (handleSend plain (Response 500 NotJson) (mount exampleProps))) = "" /\
  loading (fst (handleSend plain (Response 500 NotJson) (mount exampleProps))) = false.
Proof.
  split; [apply failed_status; reflexivity|].
  apply (send_failure_uniform plain (mount exampleProps)
           (mkEditor "Long paragraph..." true) (Response 500 NotJson));
    [reflexivity | apply failed_status; reflexivity].
Defined.

(** C7 fails as stated: Send is not disabled while the modal is open; a
    request that fails with status 500 then leaves the earlier response
    pending and the modal open. *)
Lemma send_non2xx_with_modal_open :
  let s1 := fst (handleSend plain (Response 200 (JsonValue (Some "Short version.")))
                   (mount exampleProps)) in
  let s2 := fst (handleSend plain (Response 500 NotJson) s1) in
  sendDisabled exampleProps s1 = false /\
  responseText s2 = "Short version." /\ responseText s2 <> "" /\
  modalOpen s2 = true /\ modalOpen s2 <> false.
Proof. repeat split; try reflexivity; discriminate. Qed.

Lemma send_non2xx_state_witness :
  error (fst (handleSend plain (Response 500 NotJson) (mount exampleProps))) = SEND_FAILED /\
  error (fst (handleSend plain (Response 500 NotJson) (mount exampleProps))) <> "" /\
  responseText (fst (handleSend plain (Response 500 NotJson) (mount exampleProps))) = "" /\
  modalOpen (fst (handleSend plain (Response 500 NotJson) (mount exampleProps))) = false.
Proof.
  apply (send_non2xx_state plain (mount exampleProps)
           (mkEditor "Long paragraph..." true) 500 NotJson); reflexivity.
Defined.

(** C10 at the state a 2xx JSON reply without a text field leaves: the modal
    is open on an empty response, and Accept changes nothing but the modal. *)
Lemma accept_empty_response_witness :
  let opened := fst (handleSend plain (Response 200 (JsonValue None)) (mount exampleProps)) in
  (modalOpen opened = true /\ responseText opened = "") /\
  editor (fst (handleAccept exampleProps opened)) = editor opened /\
  snd (handleAccept exampleProps opened) = [] /\
  modalOpen (fst (handleAccept exampleProps opened)) = false /\
  responseText (fst (handleAccept exampleProps opened)) = "".
Proof.
  split; [split; reflexivity|].
  apply (accept_empty_response exampleProps
           (fst (handleSend plain (Response 200 (JsonValue None)) (mount exampleProps)))).
  reflexivity.
Defined.

End TiptapEditorProofs.

(** ** Properties of the proposal workflow screen *)

Module ProposalDevelopmentProofs.
Import ProposalDevelopmentModule.

Ltac run_calls := unfold run; cbn [foldl app].

Section Screen.

Context {UserRole : Type} `{!EqDecision UserRole}.
Context (HCP RESEARCHER STATISTICIAN : UserRole).
Context {ModuleStage : Type} (DATA_COLLECTION_ANALYSIS : ModuleStage).
Variable MOCK_USERS : list (@User UserRole).

Implicit Types (w : @World ModuleStage) (p : @Project ModuleStage)
  (c : @Call ModuleStage) (pr : Proposal).

Lemma run_cons c (calls : list Call) w :
  run (c :: calls) w = run calls (perform c w).
Proof. reflexivity. Qed.

Lemma run_app (calls1 calls2 : list (@Call ModuleStage)) w :
  run (calls1 ++ calls2) w = run calls2 (run calls1 w).
Proof. unfold run. apply foldl_app. Qed.

(** The ethics status after [updateProposal]: the status of the partial
    object when it has one, the old status otherwise. *)
Lemma statusOf_updateProposal (patch : ProposalPatch) w p :
  currentProject w = Some p ->
  statusOf (currentProject (updateProposal patch w)) =
    match patch_ethicsStatus patch with
    | Some x => Some x
    | None => statusOf (currentProject w)
    end.
Proof.
  intros Hp. unfold updateProposal. rewrite Hp. simpl.
  destruct (patch_ethicsStatus patch); [reflexivity|].
  now destruct (proposal p).
Qed.

Lemma updateProposal_project (patch : ProposalPatch) w p :
  currentProject w = Some p ->
  exists p', currentProject (updateProposal patch w) = Some p'.
Proof. intros Hp. unfold updateProposal. rewrite Hp. eauto. Qed.

(** A call that is not [updateProposal] leaves the proposal as it is. *)
Lemma perform_proposal c w :
  touchesProposal c = false ->
  (currentProject (perform c w)) ≫= proposal = (currentProject w) ≫= proposal.
Proof.
  destruct c; simpl; try discriminate; intros _; try reflexivity.
  - unfold assignExpert. destruct (currentProject w) eqn:E; simpl; rewrite ?E; reflexivity.
  - unfold setProjectStage. destruct (currentProject w) eqn:E; simpl; rewrite ?E; reflexivity.
Qed.

Lemma statusOf_bind (cp : option (@Project ModuleStage)) :
  statusOf cp = (cp ≫= proposal) ≫= ethicsStatus.
Proof. destruct cp as [p|]; [|reflexivity]. simpl. now destruct (proposal p). Qed.

Lemma perform_status c w :
  touchesProposal c = false ->
  statusOf (currentProject (perform c w)) = statusOf (currentProject w).
Proof. intros H. rewrite !statusOf_bind. now rewrite perform_proposal. Qed.

Lemma statusIs_true (cp : option (@Project ModuleStage)) (x : string) :
  statusIs cp x = true <-> statusOf cp = Some x.
Proof. unfold statusIs. rewrite bool_decide_eq_true. reflexivity. Qed.

Lemma statusIs_false (cp : option (@Project ModuleStage)) (x : string) :
  statusIs cp x = false <-> statusOf cp <> Some x.
Proof. unfold statusIs. rewrite bool_decide_eq_false. reflexivity. Qed.

(** C2: Proceed to Data Collection sets the project stage and navigates when
    the ethics status of the proposal is Approved, and only then; with any
    other status, or without a proposal, it sets the blocking error and
    leaves the project, its stage and the route as they are. *)
Theorem proceed_iff_approved w :
  let calls := proceedToDataCollection DATA_COLLECTION_ANALYSIS (currentProject w) in
  (statusOf (currentProject w) = Some "Approved" /\
   calls = [SetProjectStage DATA_COLLECTION_ANALYSIS;
            SetNotification (Some (mkNotification
              "Proceeding to Data Collection & Analysis." Success));
            Navigate "/data"] /\
   option_map stage (currentProject (run calls w)) = Some DATA_COLLECTION_ANALYSIS /\
   route (run calls w) = "/data" /\
   error (run calls w) = error w)
  \/
  (statusOf (currentProject w) <> Some "Approved" /\
   calls = [SetError NOT_APPROVED;
            SetNotification (Some (mkNotification NOT_APPROVED Error))] /\
   error (run calls w) = Some NOT_APPROVED /\
   currentProject (run calls w) = currentProject w /\
   route (run calls w) = route w).
Proof.
  intros calls. subst calls. unfold proceedToDataCollection.
  destruct (statusIs (currentProject w) "Approved") eqn:E.
  - left. apply statusIs_true in E. split; [exact E|].
    split; [reflexivity|].
    destruct (currentProject w) as [p|] eqn:Hp; [|discriminate].
    unfold run. simpl. unfold setProjectStage. rewrite Hp. simpl.
    repeat split; reflexivity.
  - right. apply statusIs_false in E. split; [exact E|].
    repeat split; reflexivity.
Qed.

(** C5: with a current project, after each of submitToEthics,
    simulateEthicsFeedback and markEthicsApproved the ethics status of the
    proposal is one of Not Submitted, Submitted, Feedback Received and
    Approved. *)
Theorem ethics_operations_status_enumerated w p :
  currentProject w = Some p ->
  enumerated (statusOf (currentProject (run (submitToEthics (currentProject w)) w))) /\
  enumerated (statusOf (currentProject (run (simulateEthicsFeedback (currentProject w)) w))) /\
  enumerated (statusOf (currentProject
    (run (markEthicsApproved STATISTICIAN MOCK_USERS (currentProject w)) w))).
Proof.
  intros Hp. rewrite Hp.
  split; [|split].
  - exists "Submitted". split; [|simpl; tauto].
    unfold submitToEthics. run_calls. rewrite perform_status by reflexivity.
    simpl. now rewrite (statusOf_updateProposal _ _ _ Hp).
  - exists "Feedback Received". split; [|simpl; tauto].
    unfold simulateEthicsFeedback. run_calls. rewrite perform_status by reflexivity.
    simpl. now rewrite (statusOf_updateProposal _ _ _ Hp).
  - exists "Approved". split; [|simpl; tauto].
    unfold markEthicsApproved.
    destruct (findStatistician STATISTICIAN MOCK_USERS);
      run_calls; rewrite !perform_status by reflexivity;
      simpl; now rewrite (statusOf_updateProposal _ _ _ Hp).
Qed.

(** C8: with a current project, markEthicsApproved makes the ethics status
    Approved; when the user list has a statistician it calls assignExpert
    with the role statistician and the id of one, and shows a success
    notification with that user's name; when the list has none it shows the
    softer success notification and makes no assignment. *)
Theorem approve_assigns_statistician w p :
  currentProject w = Some p ->
  let calls := markEthicsApproved STATISTICIAN MOCK_USERS (currentProject w) in
  statusOf (currentProject (run calls w)) = Some "Approved" /\
  ((exists u, In u MOCK_USERS /\ role u = STATISTICIAN) ->
   exists u, In u MOCK_USERS /\ role u = STATISTICIAN /\
     calls =
       [UpdateProposal (mkPatch None (Some "Approved")
          (Some "Congratulations! Your proposal has been approved."));
        AssignExpert "statistician" (user_id u);
        SetNotification (Some (mkNotification
          ("Proposal Approved! Statistician " +:+ QUOTE +:+ user_name u +:+
           QUOTE +:+ " has been assigned (12 hours allocated).") Success))] /\
     notification (run calls w) = Some (mkNotification
          ("Proposal Approved! Statistician " +:+ QUOTE +:+ user_name u +:+
           QUOTE +:+ " has been assigned (12 hours allocated).") Success)) /\
  ((forall u, In u MOCK_USERS -> role u <> STATISTICIAN) ->
   calls =
     [UpdateProposal (mkPatch None (Some "Approved")
        (Some "Congratulations! Your proposal has been approved."));
      SetNotification (Some (mkNotification
        "Proposal Approved! (No mock statistician found)." Success))] /\
   notification (run calls w) = Some (mkNotification
        "Proposal Approved! (No mock statistician found)." Success) /\
   (currentProject (run calls w)) ≫= assignedStatistician = assignedStatistician p).
Proof.
  intros Hp calls. subst calls. rewrite Hp. unfold markEthicsApproved.
  split; [|split].
  - destruct (findStatistician STATISTICIAN MOCK_USERS);
      run_calls; rewrite !perform_status by reflexivity;
      simpl; now rewrite (statusOf_updateProposal _ _ _ Hp).
  - intros [u0 [Hin Hrole]].
    destruct (findStatistician STATISTICIAN MOCK_USERS) as [u|] eqn:Hf.
    + unfold findStatistician in Hf. apply find_some in Hf as [Hin' Hr].
      apply bool_decide_eq_true in Hr.
      exists u. repeat split; auto.
    + unfold findStatistician in Hf.
      pose proof (find_none _ _ Hf u0 Hin) as Hn.
      apply bool_decide_eq_false in Hn. contradiction.
  - intros Hnone.
    destruct (findStatistician STATISTICIAN MOCK_USERS) as [u|] eqn:Hf.
    + unfold findStatistician in Hf. apply find_some in Hf as [Hin' Hr].
      apply bool_decide_eq_true in Hr. destruct (Hnone u Hin' Hr).
    + split; [reflexivity|]. split; [reflexivity|].
      run_calls. simpl. unfold updateProposal. rewrite Hp. reflexivity.
Qed.

(** C6: with a project and a proposal, for every section id: when the
    service replies with a non-empty text and no error, the section's stored
    text becomes its previous text, then the separator marker, then the
    returned text, and the rest of the proposal stays; otherwise the error is
    the error string of the reply, or the generic message when the reply has
    none, and the project is unchanged. *)
Theorem ai_suggestion_outcome w p pr (sectionId : string) (response : RAGResponse) :
  currentProject w = Some p ->
  proposal p = Some pr ->
  let w' := run (getAISectionSuggestion (currentProject w) sectionId response) w in
  let previous := or_empty (sections pr !! sectionId) in
  if succeeded response then
    (exists t, response_text response = Some t /\ t <> "" /\
       (currentProject w') ≫= proposal =
         Some (mkProposal (<[sectionId := previous +:+ AI_SEPARATOR +:+ t]> (sections pr))
                          (ethicsStatus pr) (ethicsFeedback pr)) /\
       sectionText (currentProject w') sectionId = previous +:+ AI_SEPARATOR +:+ t) /\
    error w' = None
  else
    error w' = Some (match response_error response with
                     | Some e => if String.eqb e "" then "Failed to get AI suggestions." else e
                     | None => "Failed to get AI suggestions."
                     end) /\
    currentProject w' = currentProject w.
Proof.
  intros Hp Hpr w' previous. subst w' previous.
  unfold getAISectionSuggestion. rewrite Hp, Hpr.
  destruct (succeeded response) eqn:Hs.
  - unfold succeeded in Hs. apply andb_true_iff in Hs as [Ht _].
    apply truthy_or_empty in Ht as [Ht Hne].
    unfold handleSectionChange. rewrite Hpr. run_calls.
    unfold perform, setIsLoading, setError, setNotification, updateProposal.
    cbn -[String.append AI_SEPARATOR]. rewrite Hp.
    cbn -[String.append AI_SEPARATOR]. rewrite Hpr.
    cbn -[String.append AI_SEPARATOR].
    split; [|reflexivity].
    exists (or_empty (response_text response)).
    split; [exact Ht|]. split; [exact Hne|].
    split.
    + f_equal. destruct (ethicsStatus pr), (ethicsFeedback pr); reflexivity.
    + rewrite lookup_insert_eq. reflexivity.
  - run_calls. simpl. split; [|exact Hp].
    f_equal. destruct (response_error response) as [e|]; simpl; [|reflexivity].
    destruct (String.eqb e ""); reflexivity.
Qed.

Lemma statusOf_updateProposal_any (patch : ProposalPatch) w :
  statusOf (currentProject (updateProposal patch w)) =
    match currentProject w with
    | Some _ => match patch_ethicsStatus patch with
                | Some x => Some x
                | None => statusOf (currentProject w)
                end
    | None => None
    end.
Proof.
  unfold updateProposal. destruct (currentProject w) as [p|] eqn:Hp.
  - simpl. destruct (patch_ethicsStatus patch); [reflexivity|].
    destruct (proposal p); reflexivity.
  - now rewrite Hp.
Qed.

Lemma perform_keepsStatus c w (st : option string) :
  statusOf (currentProject w) = st ->
  keepsStatus st c ->
  statusOf (currentProject (perform c w)) = st.
Proof.
  intros Hst Hk. destruct (touchesProposal c) eqn:Ht.
  - destruct c; try discriminate. simpl in *.
    rewrite statusOf_updateProposal_any.
    destruct (currentProject w) as [p|] eqn:Hp; [|now subst st].
    destruct Hk as [-> | ->]; [exact Hst|].
    now destruct st.
  - now rewrite perform_status.
Qed.

Lemma run_keepsStatus (calls : list (@Call ModuleStage)) w (st : option string) :
  statusOf (currentProject w) = st ->
  Forall (keepsStatus st) calls ->
  statusOf (currentProject (run calls w)) = st.
Proof.
  revert w. induction calls as [|c calls IH]; intros w Hst Hall; [exact Hst|].
  inversion Hall as [|? ? Hc Hcs]; subst.
  rewrite run_cons. apply IH; [|exact Hcs]. now apply perform_keepsStatus.
Qed.

Lemma handleSectionChange_keepsStatus (cp : option (@Project ModuleStage))
    (sectionId value : string) :
  Forall (keepsStatus (statusOf cp)) (handleSectionChange cp sectionId value).
Proof.
  unfold handleSectionChange. destruct cp as [p|]; [|constructor].
  simpl. destruct (proposal p) as [pr|]; [|constructor].
  constructor; [right; reflexivity|constructor].
Qed.

Lemma handleSaveProposal_keepsStatus (cp : option (@Project ModuleStage)) :
  Forall (keepsStatus (statusOf cp)) (handleSaveProposal cp).
Proof.
  unfold handleSaveProposal. destruct cp as [p|]; [|constructor].
  simpl. destruct (proposal p) as [pr|].
  - constructor; [right; reflexivity|]. constructor; [exact I|constructor].
  - constructor; [left; reflexivity|]. constructor; [exact I|constructor].
Qed.

Lemma handler_keepsStatus w (ev : Event) :
  ethicsOperation ev = false ->
  Forall (keepsStatus (statusOf (currentProject w)))
         (handler STATISTICIAN DATA_COLLECTION_ANALYSIS MOCK_USERS w ev).
Proof.
  destruct ev; simpl; try discriminate; intros _;
    try (repeat constructor; fail).
  - apply handleSectionChange_keepsStatus.
  - unfold onAIContentAccept. rewrite !Forall_app. split; [|split].
    + apply handleSectionChange_keepsStatus.
    + apply handleSaveProposal_keepsStatus.
    + repeat constructor.
  - apply handleSaveProposal_keepsStatus.
  - unfold getAISectionSuggestion.
    destruct (currentProject w) as [p|] eqn:Hp; [|repeat constructor].
    destruct (proposal p) as [pr|] eqn:Hpr; [|repeat constructor].
    rewrite !Forall_app. split; [repeat constructor|]. split; [|repeat constructor].
    destruct (succeeded response); [|repeat constructor].
    rewrite Forall_app. split; [|repeat constructor].
    apply handleSectionChange_keepsStatus.
  - unfold proceedToDataCollection.
    destruct (statusIs (currentProject w) "Approved"); repeat constructor.
Qed.

(** Only the three ethics operations change the ethics status. *)
Lemma step_keeps_status w (ev : Event) :
  ethicsOperation ev = false ->
  statusOf (currentProject (step STATISTICIAN DATA_COLLECTION_ANALYSIS MOCK_USERS w ev)) =
  statusOf (currentProject w).
Proof.
  intros Hev. unfold step. apply run_keepsStatus; [reflexivity|].
  now apply handler_keepsStatus.
Qed.

Lemma available_rendered (editing : bool) w (ev : Event) :
  available editing w ev = true -> rendered w = true.
Proof.
  unfold available, rendered. destruct (currentProject w) as [p|]; [|discriminate].
  destruct (idea p); [|discriminate]. intros _. now apply bool_decide_eq_true.
Qed.

Lemma available_MarkEthicsApproved (editing : bool) w :
  available editing w MarkEthicsApproved = true <->
  editing = true /\ rendered w = true /\
  statusOf (currentProject w) <> Some "Submitted" /\
  statusOf (currentProject w) <> Some "Approved".
Proof.
  unfold available, rendered.
  destruct (currentProject w) as [p|] eqn:Hp; [|intuition discriminate].
  destruct (idea p) as [i|] eqn:Hi.
  2:{ split; [discriminate|]. intros (_ & H & _). apply bool_decide_eq_true in H.
      destruct H as [? [=]]. }
  rewrite <- Hp.
  destruct (statusIs (currentProject w) "Approved") eqn:Ha;
  destruct (statusIs (currentProject w) "Feedback Received") eqn:Hf;
  destruct (statusIs (currentProject w) "Submitted") eqn:Hs;
  rewrite ?statusIs_true, ?statusIs_false in *;
  destruct editing; simpl; split; intros H; try discriminate;
    try (destruct H as (H1 & H2 & H3 & H4); congruence);
    try (repeat split; try reflexivity; try assumption;
         try (apply bool_decide_eq_true; eauto); congruence).
Qed.

Lemma approved_no_ethicsOperation (editing : bool) w (ev : Event) :
  statusOf (currentProject w) = Some "Approved" ->
  available editing w ev = true ->
  ethicsOperation ev = false.
Proof.
  intros Hst. unfold available.
  destruct (currentProject w) as [p|] eqn:Hp; [|discriminate].
  destruct (idea p); [|discriminate].
  assert (Hns : statusIs (Some p) "Not Submitted" = false)
    by (apply statusIs_false; rewrite Hst; discriminate).
  assert (Hfr : statusIs (Some p) "Feedback Received" = false)
    by (apply statusIs_false; rewrite Hst; discriminate).
  assert (Hsu : statusIs (Some p) "Submitted" = false)
    by (apply statusIs_false; rewrite Hst; discriminate).
  assert (Hap : statusIs (Some p) "Approved" = true)
    by (apply statusIs_true; exact Hst).
  destruct ev; try reflexivity; rewrite ?Hns, ?Hfr, ?Hsu, ?Hap;
    destruct editing; simpl; discriminate.
Qed.

(** C4, as amended: Approved is terminal: from a world whose ethics status
    is Approved every world the user can reach has the status Approved, and
    the force-approve control is on none of them; the control is on the
    screen exactly for a user who can edit, in the statuses other than
    Submitted and Approved, so from Not Submitted and from Feedback Received
    but not from every state. *)
Theorem approved_terminal_force_approve (editing : bool) w :
  (available editing w MarkEthicsApproved = true <->
   editing = true /\ rendered w = true /\
   statusOf (currentProject w) <> Some "Submitted" /\
   statusOf (currentProject w) <> Some "Approved") /\
  (statusOf (currentProject w) = Some "Approved" ->
   forall w', reachable STATISTICIAN DATA_COLLECTION_ANALYSIS MOCK_USERS editing w w' ->
     statusOf (currentProject w') = Some "Approved" /\
     available editing w' MarkEthicsApproved = false).
Proof.
  split; [apply available_MarkEthicsApproved|].
  intros Hst w' Hreach.
  assert (Hst' : statusOf (currentProject w') = Some "Approved").
  { induction Hreach as [|w1 ev Hreach IH Hav]; [exact Hst|].
    rewrite step_keeps_status; [exact IH|].
    now apply (approved_no_ethicsOperation editing w1). }
  split; [exact Hst'|].
  destruct (available editing w' MarkEthicsApproved) eqn:E; [|reflexivity].
  apply available_MarkEthicsApproved in E as (_ & _ & _ & Hne). contradiction.
Qed.

End Screen.

(** C4 fails as stated: for a user who can edit, the force-approve control
    is not on the screen when the status is Submitted, nor when it is
    Approved. *)
Lemma force_approve_not_from_every_state :
  available true (exampleWorld (Some "Submitted")) MarkEthicsApproved = false /\
  available true (exampleWorld (Some "Approved")) MarkEthicsApproved = false /\
  available true (exampleWorld (Some "Submitted")) MarkEthicsApproved <> true.
Proof. repeat split; try reflexivity. discriminate. Qed.

Lemma approved_terminal_force_approve_witness :
  available true (exampleWorld (Some "Feedback Received")) MarkEthicsApproved = true /\
  available true (exampleWorld (Some "Not Submitted")) MarkEthicsApproved = true /\
  statusOf (currentProject
    (step "Statistician" "DATA_COLLECTION_ANALYSIS" exampleUsers
       (exampleWorld (Some "Approved")) ProceedToDataCollection)) = Some "Approved" /\
  available true
    (step "Statistician" "DATA_COLLECTION_ANALYSIS" exampleUsers
       (exampleWorld (Some "Approved")) ProceedToDataCollection)
    MarkEthicsApproved = false.
Proof.
  split; [|split].
  - apply (approved_terminal_force_approve "Statistician" "DATA_COLLECTION_ANALYSIS"
             exampleUsers true (exampleWorld (Some "Feedback Received"))).
    repeat split; try reflexivity; discriminate.
  - apply (approved_terminal_force_approve "Statistician" "DATA_COLLECTION_ANALYSIS"
             exampleUsers true (exampleWorld (Some "Not Submitted"))).
    repeat split; try reflexivity; discriminate.
  - apply (approved_terminal_force_approve "Statistician" "DATA_COLLECTION_ANALYSIS"
             exampleUsers true (exampleWorld (Some "Approved"))); [reflexivity|].
    apply reachable_step; [apply reachable_refl | reflexivity].
Defined.

Lemma ethics_operations_status_enumerated_witness :
  let w := exampleWorld (Some "Not Submitted") in
  enumerated (statusOf (currentProject (run (submitToEthics (currentProject w)) w))) /\
  enumerated (statusOf (currentProject (run (simulateEthicsFeedback (currentProject w)) w))) /\
  enumerated (statusOf (currentProject
    (run (markEthicsApproved "Statistician" exampleUsers (currentProject w)) w))).
Proof.
  apply (ethics_operations_status_enumerated "Statistician" exampleUsers
           (exampleWorld (Some "Not Submitted"))
           (exampleProject (Some "Not Submitted"))).
  reflexivity.
Defined.

(** C8 on a list with two statisticians and on the empty list. *)
Lemma approve_assigns_statistician_witness :
  (let w := exampleWorld (Some "Feedback Received") in
   let calls := markEthicsApproved "Statistician" exampleUsers (currentProject w) in
   statusOf (currentProject (run calls w)) = Some "Approved" /\
   exists u, In u exampleUsers /\ role u = "Statistician" /\
     calls =
       [UpdateProposal (mkPatch None (Some "Approved")
          (Some "Congratulations! Your proposal has been approved."));
        AssignExpert "statistician" (user_id u);
        SetNotification (Some (mkNotification
          ("Proposal Approved! Statistician " +:+ QUOTE +:+ user_name u +:+
           QUOTE +:+ " has been assigned (12 hours allocated).") Success))] /\
     notification (run calls w) = Some (mkNotification
          ("Proposal Approved! Statistician " +:+ QUOTE +:+ user_name u +:+
           QUOTE +:+ " has been assigned (12 hours allocated).") Success)) /\
  (let w := exampleWorld (Some "Not Submitted") in
   let calls := markEthicsApproved "Statistician" [] (currentProject w) in
   statusOf (currentProject (run calls w)) = Some "Approved" /\
   calls =
     [UpdateProposal (mkPatch None (Some "Approved")
        (Some "Congratulations! Your proposal has been approved."));
      SetNotification (Some (mkNotification
        "Proposal Approved! (No mock statistician found)." Success))] /\
   notification (run calls w) = Some (mkNotification
        "Proposal Approved! (No mock statistician found)." Success) /\
   (currentProject (run calls w)) ≫= assignedStatistician = None).
Proof.
  split.
  - destruct (approve_assigns_statistician "Statistician" exampleUsers
                (exampleWorld (Some "Feedback Received"))
                (exampleProject (Some "Feedback Received")) eq_refl)
      as (Hst & Hsome & _).
    split; [exact Hst|]. apply Hsome.
    exists (mkUser "user3" "Cy Stat" "Statistician").
    split; [simpl; tauto | reflexivity].
  - destruct (approve_assigns_statistician "Statistician" []
                (exampleWorld (Some "Not Submitted"))
                (exampleProject (Some "Not Submitted")) eq_refl)
      as (Hst & _ & Hnone).
    split; [exact Hst|]. apply Hnone. intros u [].
Defined.

(** C6 on a reply with a text, and on a reply with an error. *)
Lemma ai_suggestion_outcome_witness :
  (let w := exampleWorld (Some "Not Submitted") in
   let w' := run (getAISectionSuggestion (currentProject w) "background"
                    (mkResponse (Some "- Cite the gap.") None)) w in
   let previous :=
     or_empty (({[ "background" := "Known facts." ]} : gmap string string) !! "background") in
   (exists t, Some "- Cite the gap." = Some t /\ t <> "" /\
      (currentProject w') ≫= proposal =
        Some (mkProposal
                (<["background" := previous +:+ AI_SEPARATOR +:+ t]>
                   {[ "background" := "Known facts." ]})
                (Some "Not Submitted") None) /\
      sectionText (currentProject w') "background" = previous +:+ AI_SEPARATOR +:+ t) /\
   error w' = None) /\
  (let w := exampleWorld (Some "Not Submitted") in
   let w' := run (getAISectionSuggestion (currentProject w) "methodology"
                    (mkResponse None (Some "Quota exceeded"))) w in
   error w' = Some "Quota exceeded" /\ currentProject w' = currentProject w).
Proof.
  split.
  - exact (ai_suggestion_outcome (exampleWorld (Some "Not Submitted"))
             (exampleProject (Some "Not Submitted"))
             (mkProposal {[ "background" := "Known facts." ]} (Some "Not Submitted") None)
             "background" (mkResponse (Some "- Cite the gap.") None) eq_refl eq_refl).
  - exact (ai_suggestion_outcome (exampleWorld (Some "Not Submitted"))
             (exampleProject (Some "Not Submitted"))
             (mkProposal {[ "background" := "Known facts." ]} (Some "Not Submitted") None)
             "methodology" (mkResponse None (Some "Quota exceeded")) eq_refl eq_refl).
Defined.

End ProposalDevelopmentProofs.

(** ** The editor wrapper over sequences of events *)

Module TiptapEditorTraces.
Import TiptapEditor.

Section Traces.

Variable getText : string -> string.
Variable getHTML : string -> string.

Lemma offered_In (options : list (string * string)) (a : string) :
  offered options a = true -> In a (optionValues options).
Proof.
  unfold offered. rewrite existsb_exists. intros (x & Hin & Heq).
  apply String.eqb_eq in Heq. now subst.
Qed.

(** What every reachable state satisfies: a response is pending only while
    the modal is open, the error is empty or the generic message, and the
    two selections are among the offered options. *)
Lemma reachable_invariant (p : Props) (s : State) :
  reachable getText getHTML p s ->
  (modalOpen s = false -> responseText s = "") /\
  (error s = "" \/ error s = SEND_FAILED) /\
  In (action s) (optionValues actionOptions) /\
  In (style s) (optionValues styleOptions).
Proof.
  induction 1 as [|s ev Hreach (Hm & He & Ha & Hs) Hav].
  - cbn. repeat split; auto 10.
  - destruct ev; cbn [step fst].
    + cbn [available] in Hav. destruct (editor s); [|discriminate].
      apply andb_true_iff in Hav as [_ Hav]. apply offered_In in Hav.
      repeat split; assumption.
    + cbn [available] in Hav. destruct (editor s); [|discriminate].
      apply andb_true_iff in Hav as [_ Hav]. apply offered_In in Hav.
      repeat split; assumption.
    + unfold handleSend_begin. destruct (editor s); cbn [fst];
        repeat split; try assumption. now left.
    + unfold handleSend_settle. destruct (tryBlock reply); cbn;
        repeat split; try assumption; try discriminate; auto.
    + unfold handleAccept.
      destruct (editor s); [destruct (truthy (Some (responseText s)))|];
        cbn; repeat split; assumption.
    + cbn. repeat split; assumption.
    + cbn. repeat split; assumption.
    + unfold onUpdate. destruct (editor s); cbn; repeat split; assumption.
Qed.

(** X1: in every state the component can reach after it mounted, a response
    is pending only while the modal is open: with the modal closed,
    responseText is the empty string. *)
Theorem pending_response_only_in_modal (p : Props) (s : State) :
  reachable getText getHTML p s ->
  modalOpen s = false ->
  responseText s = "".
Proof. intros Hreach. now apply (reachable_invariant p s Hreach). Qed.

(** X2: a request sent from a reachable state is one POST to the fixed URL
    with the JSON content type, whose body holds the plain text of the
    surface, an action among the five offered and a style among the four
    offered. *)
Theorem request_well_formed (p : Props) (s : State) :
  reachable getText getHTML p s ->
  available p s PressSend = true ->
  exists e, editor s = Some e /\
    snd (step getText getHTML p s PressSend) =
      [Fetch PROCESS_URL "POST" [("Content-Type", "application/json")]
         (mkBody (getText (content e)) (action s) (style s))] /\
    In (action s) ["expand"; "rewrite"; "summarize"; "improve"; "simplify"] /\
    In (style s) ["formal"; "casual"; "creative"; "professional"].
Proof.
  intros Hreach Hav. destruct (reachable_invariant p s Hreach) as (_ & _ & Ha & Hs).
  simpl in Hav. destruct (editor s) as [e|] eqn:He; [|discriminate].
  exists e. split; [reflexivity|]. simpl. unfold handleSend_begin. rewrite He.
  repeat split; assumption.
Qed.

(** X3: in every reachable state the error string is empty or the one
    generic message. *)
Theorem error_is_generic (p : Props) (s : State) :
  reachable getText getHTML p s ->
  error s = "" \/ error s = "Failed to get response. Please try again.".
Proof. intros Hreach. now apply (reachable_invariant p s Hreach). Qed.

(** X4: with an editor, a Send ends in exactly one of two ways, whatever the
    reply: the generic error is set and the modal and the pending response
    stay as they were (network error, status outside 200-299, body not JSON
    or null); or the status is 2xx, the body a JSON value, the modal opens on
    its text field (the empty string when it has none) and an error shown
    before is cleared. *)
Theorem send_outcome_dichotomy (s : State) (e : Editor) (reply : FetchOutcome) :
  editor s = Some e ->
  (failed reply /\
   error (fst (handleSend getText reply s)) = SEND_FAILED /\
   modalOpen (fst (handleSend getText reply s)) = modalOpen s /\
   responseText (fst (handleSend getText reply s)) = responseText s)
  \/
  (~ failed reply /\
   exists status t, reply = Response status (JsonValue t) /\ ok status = true /\
     error (fst (handleSend getText reply s)) = "" /\
     modalOpen (fst (handleSend getText reply s)) = true /\
     responseText (fst (handleSend getText reply s)) = or_empty t).
Proof.
  intros He. unfold handleSend, handleSend_begin. rewrite He. simpl.
  unfold handleSend_settle.
  destruct reply as [|status body].
  - left. repeat split; try reflexivity. constructor.
  - simpl. destruct (ok status) eqn:Hok; simpl.
    + destruct body as [| |t]; simpl.
      * left. repeat split; try reflexivity. now constructor.
      * left. repeat split; try reflexivity. now constructor.
      * right. split.
        -- intros Hf. inversion Hf; congruence.
        -- exists status, t. repeat split; auto.
    + left. repeat split; try reflexivity. now constructor.
Qed.

(** X5: a response is accepted at most once: a second Accept, right after
    the first, changes nothing and calls no callback. *)
Theorem accept_once (p : Props) (s : State) :
  handleAccept p (fst (handleAccept p s)) = (fst (handleAccept p s), []).
Proof.
  unfold handleAccept.
  destruct (editor s) as [e|] eqn:He; simpl.
  - destruct (negb (responseText s =? "")%string); simpl; rewrite ?He; reflexivity.
  - rewrite He. reflexivity.
Qed.

(** X6: one request at a time: pressing Send, when it is enabled, sets the
    loading flag and clears the error, and until the reply arrives Send and
    the two dropdowns are disabled; every reply, failed or not, resets the
    loading flag, which enables Send again unless the component is
    disabled. *)
Theorem single_flight (p : Props) (s : State) (a : string) (reply : FetchOutcome) :
  available p s PressSend = true ->
  let s1 := fst (step getText getHTML p s PressSend) in
  let s2 := fst (step getText getHTML p s1 (Reply reply)) in
  loading s1 = true /\ error s1 = "" /\
  available p s1 PressSend = false /\
  available p s1 (SelectAction a) = false /\
  available p s1 (SelectStyle a) = false /\
  available p s1 (Reply reply) = true /\
  loading s2 = false /\
  available p s2 PressSend = true.
Proof.
  simpl. destruct (editor s) as [e|] eqn:He; [|discriminate].
  intros Hav. unfold handleSend_begin. rewrite He. simpl. rewrite He.
  unfold sendDisabled in *. simpl.
  apply negb_true_iff, orb_false_iff in Hav as [Hd Hl]. rewrite Hd. simpl.
  unfold handleSend_settle.
  destruct (tryBlock reply); simpl; rewrite He; repeat split; reflexivity.
Qed.


End Traces.

Lemma example_reachable :
  reachable plain plain exampleProps
    (fst (step plain plain exampleProps
            (fst (step plain plain exampleProps
                    (fst (step plain plain exampleProps (mount exampleProps)
                            (SelectAction "summarize")))
                    PressSend))
            (Reply (Response 500 NotJson)))).
Proof.
  apply reachable_step; [|reflexivity].
  apply reachable_step; [|reflexivity].
  apply reachable_step; [|reflexivity].
  apply reachable_mount.
Qed.

Lemma pending_response_only_in_modal_witness :
  responseText
    (fst (step plain plain exampleProps
            (fst (step plain plain exampleProps
                    (fst (step plain plain exampleProps (mount exampleProps)
                            (SelectAction "summarize")))
                    PressSend))
            (Reply (Response 500 NotJson)))) = "".
Proof.
  apply (pending_response_only_in_modal plain plain exampleProps);
    [exact example_reachable | reflexivity].
Defined.

Lemma request_well_formed_witness :
  exists e, editor (mount exampleProps) = Some e /\
    snd (step plain plain exampleProps (mount exampleProps) PressSend) =
      [Fetch PROCESS_URL "POST" [("Content-Type", "application/json")]
         (mkBody (plain (content e)) "rewrite" "formal")] /\
    In "rewrite" ["expand"; "rewrite"; "summarize"; "improve"; "simplify"] /\
    In "formal" ["formal"; "casual"; "creative"; "professional"].
Proof.
  apply (request_well_formed plain plain exampleProps (mount exampleProps));
    [apply reachable_mount | reflexivity].
Defined.

Lemma error_is_generic_witness :
  error
    (fst (step plain plain exampleProps
            (fst (step plain plain exampleProps
                    (fst (step plain plain exampleProps (mount exampleProps)
                            (SelectAction "summarize")))
                    PressSend))
            (Reply (Response 500 NotJson)))) = "" \/
  error
    (fst (step plain plain exampleProps
            (fst (step plain plain exampleProps
                    (fst (step plain plain exampleProps (mount exampleProps)
                            (SelectAction "summarize")))
                    PressSend))
            (Reply (Response 500 NotJson)))) = "Failed to get response. Please try again.".
Proof.
  apply (error_is_generic plain plain exampleProps). exact example_reachable.
Defined.

Lemma send_outcome_dichotomy_witness :
  (failed (Response 204 (JsonValue None)) /\
   error (fst (handleSend plain (Response 204 (JsonValue None)) (mount exampleProps))) = SEND_FAILED /\
   modalOpen (fst (handleSend plain (Response 204 (JsonValue None)) (mount exampleProps))) = false /\
   responseText (fst (handleSend plain (Response 204 (JsonValue None)) (mount exampleProps))) = "")
  \/
  (~ failed (Response 204 (JsonValue None)) /\
   exists status t, Response 204 (JsonValue None) = Response status (JsonValue t) /\
     ok status = true /\
     error (fst (handleSend plain (Response 204 (JsonValue None)) (mount exampleProps))) = "" /\
     modalOpen (fst (handleSend plain (Response 204 (JsonValue None)) (mount exampleProps))) = true /\
     responseText (fst (handleSend plain (Response 204 (JsonValue None)) (mount exampleProps))) = or_empty t).
Proof.
  apply (send_outcome_dichotomy plain (mount exampleProps)
           (mkEditor "Long paragraph..." true) (Response 204 (JsonValue None))).
  reflexivity.
Defined.

Lemma single_flight_witness :
  let s1 := fst (step plain plain exampleProps (mount exampleProps) PressSend) in
  let s2 := fst (step plain plain exampleProps s1 (Reply NetworkError)) in
  loading s1 = true /\ error s1 = "" /\
  available exampleProps s1 PressSend = false /\
  available exampleProps s1 (SelectAction "expand") = false /\
  available exampleProps s1 (SelectStyle "expand") = false /\
  available exampleProps s1 (Reply NetworkError) = true /\
  loading s2 = false /\
  available exampleProps s2 PressSend = true.
Proof.
  apply (single_flight plain plain exampleProps (mount exampleProps) "expand" NetworkError).
  reflexivity.
Defined.


End TiptapEditorTraces.

(** ** The workflow screen: edits, saves and the ethics workflow *)

Module ProposalDevelopmentTraces.
Import ProposalDevelopmentModule ProposalDevelopmentProofs.

Section Screen.

Context {UserRole : Type} `{!EqDecision UserRole}.
Context (HCP RESEARCHER STATISTICIAN : UserRole).
Context {ModuleStage : Type} (DATA_COLLECTION_ANALYSIS : ModuleStage).
Variable MOCK_USERS : list (@User UserRole).

Implicit Types (w : @World ModuleStage) (p : @Project ModuleStage)
  (c : @Call ModuleStage) (pr : Proposal).

Lemma project_eta p :
  mkProject (title p) (idea p) (proposal p) (stage p)
            (assignedResearcher p) (assignedStatistician p) = p.
Proof. now destruct p. Qed.

Lemma world_eta w :
  mkWorld (currentProject w) (isLoading w) (error w) (activeSection w)
          (notification w) (showMeetingPlaceholder w) (route w) = w.
Proof. now destruct w. Qed.

Lemma keep_option {A} (x y : option A) :
  match x with Some a => Some a | None => match x with Some a => Some a | None => y end end
  = match x with Some a => Some a | None => y end.
Proof. now destruct x. Qed.

(** The proposal after [updateProposal], for a project that has one. *)
Lemma updateProposal_proposal (patch : ProposalPatch) w p pr :
  currentProject w = Some p ->
  proposal p = Some pr ->
  currentProject (updateProposal patch w) =
    Some (mkProject (title p) (idea p)
      (Some (mkProposal
         (match patch_sections patch with Some m => m | None => sections pr end)
         (match patch_ethicsStatus patch with Some x => Some x | None => ethicsStatus pr end)
         (match patch_ethicsFeedback patch with Some x => Some x | None => ethicsFeedback pr end)))
      (stage p) (assignedResearcher p) (assignedStatistician p)).
Proof. intros Hp Hpr. unfold updateProposal. now rewrite Hp, Hpr. Qed.

Lemma updateProposal_frame (patch : ProposalPatch) w :
  isLoading (updateProposal patch w) = isLoading w /\
  error (updateProposal patch w) = error w /\
  notification (updateProposal patch w) = notification w /\
  route (updateProposal patch w) = route w.
Proof. unfold updateProposal. destruct (currentProject w); repeat split; reflexivity. Qed.

Lemma option_same {A} (x : option A) :
  match x with Some a => Some a | None => x end = x.
Proof. now destruct x. Qed.

(** [updateProposal] with a partial object that carries the sections [m]
    and the status and feedback the proposal already has. *)
Lemma updateProposal_sections (m m' : gmap string string) w p pr :
  currentProject w =
    Some (mkProject (title p) (idea p)
            (Some (mkProposal m' (ethicsStatus pr) (ethicsFeedback pr)))
            (stage p) (assignedResearcher p) (assignedStatistician p)) ->
  currentProject
    (updateProposal (mkPatch (Some m) (ethicsStatus pr) (ethicsFeedback pr)) w) =
    Some (mkProject (title p) (idea p)
            (Some (mkProposal m (ethicsStatus pr) (ethicsFeedback pr)))
            (stage p) (assignedResearcher p) (assignedStatistician p)).
Proof.
  intros H. unfold updateProposal. rewrite H. cbn. now rewrite !option_same.
Qed.

Lemma project_proposal_eta p pr :
  proposal p = Some pr ->
  mkProject (title p) (idea p)
    (Some (mkProposal (sections pr) (ethicsStatus pr) (ethicsFeedback pr)))
    (stage p) (assignedResearcher p) (assignedStatistician p) = p.
Proof. destruct p, pr; simpl. now intros ->. Qed.

(** X8: an edit of a section, with a project that has a proposal: the
    section then holds exactly the new text, every other section holds what
    it held, and the ethics status, the feedback and the rest of the project
    are as before. *)
Theorem section_edit_round_trip w p pr (sectionId value : string) :
  currentProject w = Some p ->
  proposal p = Some pr ->
  let w' := run (handleSectionChange (currentProject w) sectionId value) w in
  sectionText (currentProject w') sectionId = value /\
  (forall other, other <> sectionId ->
     sectionText (currentProject w') other = sectionText (currentProject w) other) /\
  currentProject w' =
    Some (mkProject (title p) (idea p)
            (Some (mkProposal (<[sectionId := value]> (sections pr))
                              (ethicsStatus pr) (ethicsFeedback pr)))
            (stage p) (assignedResearcher p) (assignedStatistician p)) /\
  error w' = error w /\ notification w' = notification w.
Proof.
  intros Hp Hpr w'. subst w'. rewrite Hp. unfold handleSectionChange. rewrite Hpr.
  run_calls. cbn [perform].
  rewrite (updateProposal_proposal _ _ _ _ Hp Hpr). cbn.
  rewrite !option_same, Hpr.
  destruct (updateProposal_frame
              (mkPatch (Some (<[sectionId:=value]> (sections pr)))
                       (ethicsStatus pr) (ethicsFeedback pr)) w) as (_ & He & Hn & _).
  repeat split; try assumption.
  - now rewrite lookup_insert_eq.
  - intros other Hne. now rewrite lookup_insert_ne.
Qed.

(** X9: an edit of a section is dropped when there is no project or the
    project has no proposal yet: the handler makes no call, so no text is
    stored and nothing is reported. *)
Theorem section_edit_dropped_without_proposal w (sectionId value : string) :
  (currentProject w) ≫= proposal = None ->
  handleSectionChange (currentProject w) sectionId value = [] /\
  run (handleSectionChange (currentProject w) sectionId value) w = w.
Proof.
  intros Hn. unfold handleSectionChange.
  destruct (currentProject w) as [p|]; [|split; reflexivity].
  simpl in Hn. rewrite Hn. split; reflexivity.
Qed.

(** X10: Save Draft, with a project that has a proposal, stores the proposal
    it read: the project is as before, and the only change is the success
    notification. *)
Theorem save_draft_keeps_project w p pr :
  currentProject w = Some p ->
  proposal p = Some pr ->
  let w' := run (handleSaveProposal (currentProject w)) w in
  currentProject w' = currentProject w /\
  notification w' = Some (mkNotification "Proposal draft saved successfully!" Success) /\
  error w' = error w /\ isLoading w' = isLoading w /\ route w' = route w.
Proof.
  intros Hp Hpr w'. subst w'. rewrite Hp. unfold handleSaveProposal. rewrite Hpr.
  run_calls. cbn [perform].
  destruct (updateProposal_frame (spread pr) w) as (Hl & He & _ & Hr).
  cbn. rewrite (updateProposal_proposal _ _ _ _ Hp Hpr). cbn.
  rewrite !option_same.
  repeat split; try assumption.
  destruct pr, p; simpl in *. now subst.
Qed.

(** X11: the acceptance callback the screen gives the editor calls
    updateProposal twice from the same render: first with the accepted text
    in the active section, then, for the save, with the sections of the
    rendered proposal, which do not hold it.  With updates applied in this
    order, each replacing the keys it carries, the stored project ends as it
    was before the acceptance: the accepted text is not in the store. *)
Theorem accepted_content_overwritten_by_save w p pr (active content : string) :
  currentProject w = Some p ->
  proposal p = Some pr ->
  let calls := onAIContentAccept (currentProject w) active content in
  calls =
    [UpdateProposal (mkPatch (Some (<[active := content]> (sections pr)))
                             (ethicsStatus pr) (ethicsFeedback pr));
     UpdateProposal (mkPatch (Some (sections pr)) (ethicsStatus pr) (ethicsFeedback pr));
     SetNotification (Some (mkNotification "Proposal draft saved successfully!" Success));
     SetNotification (Some (mkNotification
       (sectionLabel active +:+ " section updated with AI suggestion and saved!")
       Success))] /\
  currentProject (run calls w) = currentProject w /\
  sectionText (currentProject (run calls w)) active = sectionText (currentProject w) active.
Proof.
  intros Hp Hpr calls. subst calls. rewrite Hp.
  unfold onAIContentAccept, handleSectionChange, handleSaveProposal. rewrite Hpr.
  split; [reflexivity|].
  assert (H : currentProject
            (run ([UpdateProposal (mkPatch (Some (<[active := content]> (sections pr)))
                                           (ethicsStatus pr) (ethicsFeedback pr))] ++
                  [UpdateProposal (spread pr);
                   SetNotification (Some (mkNotification
                     "Proposal draft saved successfully!" Success))] ++
                  [SetNotification (Some (mkNotification
                     (sectionLabel active +:+ " section updated with AI suggestion and saved!")
                     Success))]) w) = Some p).
  { run_calls. cbn [perform setNotification currentProject].
    erewrite (updateProposal_proposal (spread pr));
      [| apply (updateProposal_proposal _ _ _ _ Hp Hpr) | reflexivity].
    cbn. rewrite !option_same. destruct pr, p; simpl in *. now subst. }
  rewrite H. split; reflexivity.
Qed.

(** X12: a request for AI suggestions without a project, or for a project
    without a proposal, only sets the error: the loading flag is not
    raised, the notification stays and nothing is stored. *)
Theorem ai_suggestion_without_proposal w (sectionId : string) (response : RAGResponse) :
  (currentProject w) ≫= proposal = None ->
  let calls := getAISectionSuggestion (currentProject w) sectionId response in
  calls = [SetError "No active project or proposal to get suggestions for."] /\
  error (run calls w) = Some "No active project or proposal to get suggestions for." /\
  isLoading (run calls w) = isLoading w /\
  notification (run calls w) = notification w /\
  currentProject (run calls w) = currentProject w.
Proof.
  intros Hn calls. subst calls. unfold getAISectionSuggestion.
  destruct (currentProject w) as [p|] eqn:Hp.
  - simpl in Hn. rewrite Hn. repeat split; try reflexivity. exact Hp.
  - repeat split; try reflexivity. exact Hp.
Qed.

(** X13: a request for AI suggestions, with a project and a proposal, ends
    with the loading flag down whatever the reply; when the reply has
    neither a text nor an error, the error is the generic message and the
    notification reads Error: undefined. *)
Theorem ai_suggestion_ends_loading w p pr (sectionId : string) (response : RAGResponse) :
  currentProject w = Some p ->
  proposal p = Some pr ->
  let w' := run (getAISectionSuggestion (currentProject w) sectionId response) w in
  isLoading w' = false /\
  (truthy (response_text response) = false ->
   response_error response = None ->
   error w' = Some "Failed to get AI suggestions." /\
   notification w' = Some (mkNotification "Error: undefined" Error)).
Proof.
  intros Hp Hpr w'. subst w'. unfold getAISectionSuggestion. rewrite Hp, Hpr.
  rewrite !run_app. split.
  - reflexivity.
  - intros Ht He. unfold succeeded. rewrite Ht, He. split; reflexivity.
Qed.

(** X14: only the three operations of the ethics workflow change the ethics
    status: selecting and editing a section, accepting AI content, saving,
    AI suggestions, proceeding and the dismissals leave it as it is, in
    every world. *)
Theorem only_ethics_operations_change_status w (ev : Event) :
  ethicsOperation ev = false ->
  statusOf (currentProject
    (step STATISTICIAN DATA_COLLECTION_ANALYSIS MOCK_USERS w ev)) =
  statusOf (currentProject w).
Proof. apply step_keeps_status. Qed.

(** X15: a user who cannot edit has no control to edit a section, save the
    draft, ask for AI suggestions, submit to ethics or force the approval;
    the control that simulates the committee's feedback is not tied to the
    role: with the status Submitted it is there for such a user too. *)
Theorem viewer_controls w (content : string) (response : RAGResponse) :
  available false w (EditSection content) = false /\
  available false w SaveDraft = false /\
  available false w (AISuggestions response) = false /\
  available false w SubmitToEthics = false /\
  available false w MarkEthicsApproved = false /\
  (rendered w = true -> statusOf (currentProject w) = Some "Submitted" ->
   available false w SimulateEthicsFeedback = true).
Proof.
  unfold available, rendered.
  destruct (currentProject w) as [p|]; [|repeat split; try reflexivity; discriminate].
  destruct (idea p) as [i|].
  - rewrite !andb_false_r. repeat split; try reflexivity.
    intros _ Hst. now apply statusIs_true.
  - repeat split; try reflexivity. intros H. apply bool_decide_eq_true in H.
    destruct H as [? [=]].
Qed.

Lemma perform_rendered c w : rendered (perform c w) = rendered w.
Proof.
  destruct c; try reflexivity; simpl.
  - unfold updateProposal, rendered. destruct (currentProject w) eqn:E; simpl; now rewrite ?E.
  - unfold assignExpert, rendered. destruct (currentProject w) eqn:E; simpl; now rewrite ?E.
  - unfold setProjectStage, rendered. destruct (currentProject w) eqn:E; simpl; now rewrite ?E.
Qed.

Lemma run_rendered (calls : list (@Call ModuleStage)) w :
  rendered (run calls w) = rendered w.
Proof.
  revert w. induction calls as [|c calls IH]; intros w; [reflexivity|].
  rewrite run_cons, IH. apply perform_rendered.
Qed.

Lemma rendered_project w : rendered w = true -> exists p, currentProject w = Some p.
Proof. unfold rendered. destruct (currentProject w); [eauto|discriminate]. Qed.

Lemma status_after_simulate w :
  rendered w = true ->
  statusOf (currentProject (run (simulateEthicsFeedback (currentProject w)) w))
    = Some "Feedback Received".
Proof.
  intros Hr. destruct (rendered_project w Hr) as [p Hp]. rewrite Hp.
  unfold simulateEthicsFeedback. run_calls. rewrite perform_status by reflexivity.
  simpl. now rewrite (statusOf_updateProposal _ _ _ Hp).
Qed.

Lemma status_after_approve w :
  rendered w = true ->
  statusOf (currentProject
    (run (markEthicsApproved STATISTICIAN MOCK_USERS (currentProject w)) w))
    = Some "Approved".
Proof.
  intros Hr. destruct (rendered_project w Hr) as [p Hp]. rewrite Hp.
  unfold markEthicsApproved.
  destruct (findStatistician STATISTICIAN MOCK_USERS);
    run_calls; rewrite !perform_status by reflexivity;
    simpl; now rewrite (statusOf_updateProposal _ _ _ Hp).
Qed.

(** X16: for a user who can edit, Approved can be reached from every world
    the screen renders, whatever the ethics status: at once by the force
    approval, and from Submitted through the simulated feedback. *)
Theorem approved_reachable_for_editor w :
  rendered w = true ->
  exists w',
    reachable STATISTICIAN DATA_COLLECTION_ANALYSIS MOCK_USERS true w w' /\
    statusOf (currentProject w') = Some "Approved".
Proof.
  intros Hr.
  destruct (decide (statusOf (currentProject w) = Some "Approved")) as [Ha|Ha].
  { exists w. split; [constructor | exact Ha]. }
  destruct (decide (statusOf (currentProject w) = Some "Submitted")) as [Hs|Hs].
  - set (w1 := step STATISTICIAN DATA_COLLECTION_ANALYSIS MOCK_USERS w
                 SimulateEthicsFeedback).
    assert (Hr1 : rendered w1 = true) by (unfold w1, step; now rewrite run_rendered).
    assert (Hs1 : statusOf (currentProject w1) = Some "Feedback Received")
      by (apply status_after_simulate; exact Hr).
    exists (step STATISTICIAN DATA_COLLECTION_ANALYSIS MOCK_USERS w1 MarkEthicsApproved).
    split.
    + apply reachable_step.
      * apply reachable_step; [constructor|].
        unfold available. destruct (rendered_project w Hr) as [p Hp].
        unfold rendered in Hr. rewrite Hp in *. apply bool_decide_eq_true in Hr.
        destruct Hr as [i Hi]. rewrite Hi. apply statusIs_true. exact Hs.
      * apply available_MarkEthicsApproved. repeat split; try assumption;
          rewrite Hs1; discriminate.
    + apply status_after_approve. exact Hr1.
  - exists (step STATISTICIAN DATA_COLLECTION_ANALYSIS MOCK_USERS w MarkEthicsApproved).
    split.
    + apply reachable_step; [constructor|].
      apply available_MarkEthicsApproved. repeat split; assumption.
    + apply status_after_approve. exact Hr.
Qed.

(** X17: whenever the Proceed control is on the screen, pressing it
    succeeds: the stage becomes data collection, the route /data, and no
    error is set; the refusal of the handler is not reachable through the
    control. *)
Theorem proceed_control_succeeds (editing : bool) w :
  available editing w ProceedToDataCollection = true ->
  let w' := step STATISTICIAN DATA_COLLECTION_ANALYSIS MOCK_USERS w
              ProceedToDataCollection in
  option_map stage (currentProject w') = Some DATA_COLLECTION_ANALYSIS /\
  route w' = "/data" /\
  error w' = error w /\
  notification w' =
    Some (mkNotification "Proceeding to Data Collection & Analysis." Success) /\
  statusOf (currentProject w') = Some "Approved".
Proof.
  unfold available. destruct (currentProject w) as [p|] eqn:Hp; [|discriminate].
  destruct (idea p); [|discriminate]. rewrite <- Hp. intros Ha.
  unfold step. cbn [handler]. unfold proceedToDataCollection. rewrite Ha.
  apply statusIs_true in Ha.
  run_calls. cbn [perform]. unfold setProjectStage. rewrite Hp. cbn.
  repeat split; try reflexivity.
  rewrite Hp in Ha. exact Ha.
Qed.

Lemma find_first {A} (f : A -> bool) (l : list A) (x : A) :
  find f l = Some x ->
  exists before after : list A,
    l = (before ++ x :: after)%list /\ f x = true /\
    Forall (fun v => f v = false) before.
Proof.
  induction l as [|v l IH]; simpl; [discriminate|].
  destruct (f v) eqn:Hv.
  - intros [= ->]. exists [], l. repeat split; auto.
  - intros H. destruct (IH H) as (before & after & -> & Hx & Hall).
    exists (v :: before), after. repeat split; auto.
Qed.

(** X18: the statistician markEthicsApproved assigns is the first of the
    list with that role: every user before them in the list has another
    role. *)
Theorem assigns_first_statistician w p (expertId : string) :
  currentProject w = Some p ->
  In (AssignExpert "statistician" expertId)
     (markEthicsApproved STATISTICIAN MOCK_USERS (currentProject w)) ->
  exists (before : list User) (u : User) (after : list User),
    MOCK_USERS = (before ++ u :: after)%list /\
    user_id u = expertId /\
    role u = STATISTICIAN /\
    Forall (fun v => role v <> STATISTICIAN) before.
Proof.
  intros Hp. rewrite Hp. unfold markEthicsApproved, findStatistician.
  destruct (find _ MOCK_USERS) as [u|] eqn:Hf.
  - intros [H|[H|[H|[]]]]; try discriminate. injection H as <-.
    apply find_first in Hf as (before & after & Hl & Hu & Hall).
    apply bool_decide_eq_true in Hu.
    exists before, u, after. repeat split; auto.
    eapply Forall_impl; [exact Hall|]. intros v Hv. simpl in Hv.
    now apply bool_decide_eq_false in Hv.
  - intros [H|[H|[]]]; discriminate.
Qed.

(** X19: what the three ethics operations store, for a project with a
    proposal: submitting sets the status Submitted and keeps the feedback
    text, so a resubmission still shows the committee's feedback; the
    simulated feedback sets Feedback Received and the committee's text; the
    approval sets Approved and the congratulation; none of them touches the
    sections. *)
Theorem ethics_operations_store w p pr :
  currentProject w = Some p ->
  proposal p = Some pr ->
  (currentProject (run (submitToEthics (currentProject w)) w)) ≫= proposal =
    Some (mkProposal (sections pr) (Some "Submitted") (ethicsFeedback pr)) /\
  (currentProject (run (simulateEthicsFeedback (currentProject w)) w)) ≫= proposal =
    Some (mkProposal (sections pr) (Some "Feedback Received") (Some ETHICS_FEEDBACK)) /\
  (currentProject
     (run (markEthicsApproved STATISTICIAN MOCK_USERS (currentProject w)) w)) ≫= proposal =
    Some (mkProposal (sections pr) (Some "Approved")
            (Some "Congratulations! Your proposal has been approved.")).
Proof.
  intros Hp Hpr. rewrite Hp.
  assert (Hk : forall (calls : list (@Call ModuleStage)) w0,
            Forall (fun c => touchesProposal c = false) calls ->
            (currentProject (run calls w0)) ≫= proposal = (currentProject w0) ≫= proposal).
  { induction calls as [|c calls IH]; intros w0 Hall; [reflexivity|].
    inversion Hall; subst. rewrite run_cons, IH by assumption.
    now apply perform_proposal. }
  split; [|split].
  - unfold submitToEthics. rewrite run_cons, Hk by (repeat constructor).
    cbn [perform]. now rewrite (updateProposal_proposal _ _ _ _ Hp Hpr).
  - unfold simulateEthicsFeedback. rewrite run_cons, Hk by (repeat constructor).
    cbn [perform]. now rewrite (updateProposal_proposal _ _ _ _ Hp Hpr).
  - unfold markEthicsApproved. rewrite run_cons.
    destruct (findStatistician STATISTICIAN MOCK_USERS);
      rewrite Hk by (repeat constructor);
      cbn [perform]; now rewrite (updateProposal_proposal _ _ _ _ Hp Hpr).
Qed.

(** X20: Accept in the editor of the screen.  The editor calls [onChange]
    and then the acceptance callback, both closures of the same render: the
    surface takes the accepted text, while the calls on the context end with
    the save of the rendered proposal, so that, with updates applied in
    order and each replacing the keys it carries, the store still holds the
    section's previous text. *)
Theorem accept_surface_and_store (s : TiptapEditor.State) (e : TiptapEditor.Editor)
    (isDisabled : bool) w p pr (active t : string) :
  TiptapEditor.editor s = Some e ->
  TiptapEditor.responseText s = t ->
  t <> "" ->
  currentProject w = Some p ->
  proposal p = Some pr ->
  let props := TiptapEditor.mkProps (sectionText (currentProject w) active)
                 true isDisabled true in
  let accepted := TiptapEditor.handleAccept props s in
  let calls := flat_map (editorCallbacks (currentProject w) active) (snd accepted) in
  option_map TiptapEditor.content (TiptapEditor.editor (fst accepted)) = Some t /\
  snd accepted = [TiptapEditor.OnChange t; TiptapEditor.OnAIContentAccept t] /\
  currentProject (run calls w) = currentProject w /\
  sectionText (currentProject (run calls w)) active = or_empty (sections pr !! active).
Proof.
  intros He Ht Hne Hp Hpr props accepted calls.
  assert (Hacc : accepted =
            (TiptapEditor.setResponseText ""
               (TiptapEditor.setModalOpen false
                  (TiptapEditor.setEditor (Some (TiptapEditor.setContent t e)) s)),
             [TiptapEditor.OnChange t; TiptapEditor.OnAIContentAccept t])).
  { subst accepted props. unfold TiptapEditor.handleAccept. rewrite He, Ht.
    apply truthy_Some in Hne. rewrite Hne. reflexivity. }
  assert (Hcalls : currentProject (run calls w) = Some p).
  { subst calls. rewrite Hacc. cbn [snd flat_map editorCallbacks].
    rewrite Hp. unfold onAIContentAccept, handleSectionChange, handleSaveProposal.
    rewrite Hpr. run_calls. cbn [perform setNotification currentProject].
    etransitivity;
      [ apply (updateProposal_sections (sections pr) (<[active := t]> (sections pr)));
        apply (updateProposal_sections (<[active := t]> (sections pr))
                                       (<[active := t]> (sections pr)));
        apply (updateProposal_sections (<[active := t]> (sections pr)) (sections pr));
        rewrite Hp; f_equal; symmetry; apply (project_proposal_eta p pr Hpr)
      | f_equal; apply (project_proposal_eta p pr Hpr) ]. }
  rewrite Hacc. cbn [fst snd]. split; [reflexivity|]. split; [reflexivity|].
  rewrite Hcalls. split; [now rewrite Hp|]. simpl. now rewrite Hpr.
Qed.

End Screen.

Lemma section_edit_round_trip_witness :
  let w := exampleWorld (Some "Not Submitted") in
  let p := exampleProject (Some "Not Submitted") in
  let pr := mkProposal {[ "background" := "Known facts." ]} (Some "Not Submitted") None in
  let w' := run (handleSectionChange (currentProject w) "methodology" "A cohort study.") w in
  sectionText (currentProject w') "methodology" = "A cohort study." /\
  (forall other, other <> "methodology" ->
     sectionText (currentProject w') other = sectionText (currentProject w) other) /\
  currentProject w' =
    Some (mkProject (title p) (idea p)
            (Some (mkProposal (<["methodology" := "A cohort study."]> (sections pr))
                              (ethicsStatus pr) (ethicsFeedback pr)))
            (stage p) (assignedResearcher p) (assignedStatistician p)) /\
  error w' = error w /\ notification w' = notification w.
Proof.
  exact (section_edit_round_trip (exampleWorld (Some "Not Submitted"))
           (exampleProject (Some "Not Submitted"))
           (mkProposal {[ "background" := "Known facts." ]} (Some "Not Submitted") None)
           "methodology" "A cohort study." eq_refl eq_refl).
Defined.

Lemma section_edit_dropped_without_proposal_witness :
  handleSectionChange (currentProject draftWorld) "background" "typed" = [] /\
  run (handleSectionChange (currentProject draftWorld) "background" "typed") draftWorld
    = draftWorld.
Proof.
  exact (section_edit_dropped_without_proposal draftWorld "background" "typed" eq_refl).
Defined.

Lemma save_draft_keeps_project_witness :
  let w := exampleWorld (Some "Submitted") in
  let w' := run (handleSaveProposal (currentProject w)) w in
  currentProject w' = currentProject w /\
  notification w' = Some (mkNotification "Proposal draft saved successfully!" Success) /\
  error w' = error w /\ isLoading w' = isLoading w /\ route w' = route w.
Proof.
  exact (save_draft_keeps_project (exampleWorld (Some "Submitted"))
           (exampleProject (Some "Submitted"))
           (mkProposal {[ "background" := "Known facts." ]} (Some "Submitted") None)
           eq_refl eq_refl).
Defined.

Lemma accepted_content_overwritten_by_save_witness :
  let w := exampleWorld (Some "Not Submitted") in
  let pr := mkProposal {[ "background" := "Known facts." ]} (Some "Not Submitted") None in
  let calls := onAIContentAccept (currentProject w) "background" "Short version." in
  calls =
    [UpdateProposal (mkPatch (Some (<["background" := "Short version."]> (sections pr)))
                             (ethicsStatus pr) (ethicsFeedback pr));
     UpdateProposal (mkPatch (Some (sections pr)) (ethicsStatus pr) (ethicsFeedback pr));
     SetNotification (Some (mkNotification "Proposal draft saved successfully!" Success));
     SetNotification (Some (mkNotification
       (sectionLabel "background" +:+ " section updated with AI suggestion and saved!")
       Success))] /\
  currentProject (run calls w) = currentProject w /\
  sectionText (currentProject (run calls w)) "background" =
    sectionText (currentProject w) "background".
Proof.
  exact (accepted_content_overwritten_by_save (exampleWorld (Some "Not Submitted"))
           (exampleProject (Some "Not Submitted"))
           (mkProposal {[ "background" := "Known facts." ]} (Some "Not Submitted") None)
           "background" "Short version." eq_refl eq_refl).
Defined.

Lemma ai_suggestion_without_proposal_witness :
  let calls := getAISectionSuggestion (currentProject draftWorld) "background"
                 (mkResponse (Some "- Cite the gap.") None) in
  calls = [SetError "No active project or proposal to get suggestions for."] /\
  error (run calls draftWorld) =
    Some "No active project or proposal to get suggestions for." /\
  isLoading (run calls draftWorld) = isLoading draftWorld /\
  notification (run calls draftWorld) = notification draftWorld /\
  currentProject (run calls draftWorld) = currentProject draftWorld.
Proof.
  exact (ai_suggestion_without_proposal draftWorld "background"
           (mkResponse (Some "- Cite the gap.") None) eq_refl).
Defined.

Lemma ai_suggestion_ends_loading_witness :
  let w := exampleWorld (Some "Not Submitted") in
  let w' := run (getAISectionSuggestion (currentProject w) "background"
                   (mkResponse None None)) w in
  isLoading w' = false /\
  error w' = Some "Failed to get AI suggestions." /\
  notification w' = Some (mkNotification "Error: undefined" Error).
Proof.
  destruct (ai_suggestion_ends_loading (exampleWorld (Some "Not Submitted"))
              (exampleProject (Some "Not Submitted"))
              (mkProposal {[ "background" := "Known facts." ]} (Some "Not Submitted") None)
              "background" (mkResponse None None) eq_refl eq_refl) as [Hl Hn].
  split; [exact Hl|]. exact (Hn eq_refl eq_refl).
Defined.

Lemma only_ethics_operations_change_status_witness :
  statusOf (currentProject
    (step "Statistician" "DATA_COLLECTION_ANALYSIS" exampleUsers
       (exampleWorld (Some "Feedback Received")) (EditSection "Revised."))) =
  statusOf (currentProject (exampleWorld (Some "Feedback Received"))).
Proof.
  exact (only_ethics_operations_change_status "Statistician" "DATA_COLLECTION_ANALYSIS"
           exampleUsers (exampleWorld (Some "Feedback Received"))
           (EditSection "Revised.") eq_refl).
Defined.

Lemma viewer_controls_witness :
  available false (exampleWorld (Some "Submitted")) (EditSection "typed") = false /\
  available false (exampleWorld (Some "Submitted")) SubmitToEthics = false /\
  available false (exampleWorld (Some "Submitted")) MarkEthicsApproved = false /\
  available false (exampleWorld (Some "Submitted")) SimulateEthicsFeedback = true.
Proof.
  destruct (viewer_controls (exampleWorld (Some "Submitted")) "typed"
              (mkResponse None None)) as (H1 & _ & _ & H4 & H5 & H6).
  split; [exact H1|]. split; [exact H4|]. split; [exact H5|].
  exact (H6 eq_refl eq_refl).
Defined.

Lemma approved_reachable_for_editor_witness :
  exists w',
    reachable "Statistician" "DATA_COLLECTION_ANALYSIS" exampleUsers true
      (exampleWorld (Some "Submitted")) w' /\
    statusOf (currentProject w') = Some "Approved".
Proof.
  exact (approved_reachable_for_editor "Statistician" "DATA_COLLECTION_ANALYSIS"
           exampleUsers (exampleWorld (Some "Submitted")) eq_refl).
Defined.

Lemma proceed_control_succeeds_witness :
  let w' := step "Statistician" "DATA_COLLECTION_ANALYSIS" exampleUsers
              (exampleWorld (Some "Approved")) ProceedToDataCollection in
  option_map stage (currentProject w') = Some "DATA_COLLECTION_ANALYSIS" /\
  route w' = "/data" /\
  error w' = error (exampleWorld (Some "Approved")) /\
  notification w' =
    Some (mkNotification "Proceeding to Data Collection & Analysis." Success) /\
  statusOf (currentProject w') = Some "Approved".
Proof.
  exact (proceed_control_succeeds "Statistician" "DATA_COLLECTION_ANALYSIS"
           exampleUsers false (exampleWorld (Some "Approved")) eq_refl).
Defined.

Lemma assigns_first_statistician_witness :
  exists (before : list User) (u : User) (after : list User),
    exampleUsers = (before ++ u :: after)%list /\
    user_id u = "user3" /\
    role u = "Statistician" /\
    Forall (fun v => role v <> "Statistician") before.
Proof.
  apply (assigns_first_statistician "Statistician" exampleUsers
           (exampleWorld (Some "Feedback Received"))
           (exampleProject (Some "Feedback Received")) "user3" eq_refl).
  right. left. reflexivity.
Defined.

Lemma ethics_operations_store_witness :
  let w := exampleWorld (Some "Feedback Received") in
  let pr := mkProposal {[ "background" := "Known facts." ]} (Some "Feedback Received") None in
  (currentProject (run (submitToEthics (currentProject w)) w)) ≫= proposal =
    Some (mkProposal (sections pr) (Some "Submitted") (ethicsFeedback pr)) /\
  (currentProject (run (simulateEthicsFeedback (currentProject w)) w)) ≫= proposal =
    Some (mkProposal (sections pr) (Some "Feedback Received") (Some ETHICS_FEEDBACK)) /\
  (currentProject
     (run (markEthicsApproved "Statistician" exampleUsers (currentProject w)) w)) ≫= proposal =
    Some (mkProposal (sections pr) (Some "Approved")
            (Some "Congratulations! Your proposal has been approved.")).
Proof.
  exact (ethics_operations_store "Statistician" exampleUsers
           (exampleWorld (Some "Feedback Received"))
           (exampleProject (Some "Feedback Received"))
           (mkProposal {[ "background" := "Known facts." ]} (Some "Feedback Received") None)
           eq_refl eq_refl).
Defined.

Lemma accept_surface_and_store_witness :
  let w := exampleWorld (Some "Not Submitted") in
  let s := TiptapEditor.setModalOpen true
             (TiptapEditor.setResponseText "Short version."
                (TiptapEditor.mount (TiptapEditor.mkProps "Known facts." true false true))) in
  let props := TiptapEditor.mkProps (sectionText (currentProject w) "background")
                 true false true in
  let accepted := TiptapEditor.handleAccept props s in
  let calls := flat_map (editorCallbacks (currentProject w) "background") (snd accepted) in
  option_map TiptapEditor.content (TiptapEditor.editor (fst accepted))
    = Some "Short version." /\
  snd accepted = [TiptapEditor.OnChange "Short version.";
                  TiptapEditor.OnAIContentAccept "Short version."] /\
  currentProject (run calls w) = currentProject w /\
  sectionText (currentProject (run calls w)) "background" =
    or_empty (({[ "background" := "Known facts." ]} : gmap string string) !! "background").
Proof.
  exact (accept_surface_and_store
           (TiptapEditor.setModalOpen true
              (TiptapEditor.setResponseText "Short version."
                 (TiptapEditor.mount (TiptapEditor.mkProps "Known facts." true false true))))
           (TiptapEditor.mkEditor "Known facts." true) false
           (exampleWorld (Some "Not Submitted"))
           (exampleProject (Some "Not Submitted"))
           (mkProposal {[ "background" := "Known facts." ]} (Some "Not Submitted") None)
           "background" "Short version."
           eq_refl eq_refl ltac:(discriminate) eq_refl eq_refl).
Defined.

End ProposalDevelopmentTraces.
